(** * light_runner: audio playback fallback chain and heartbeat loop

    A shallow embedding of [light_runner.py]:

    - [Module Audio]: the class [AudioPlayer] ([__init__], [play], [stop]).
      The object's fields and the process-wide [stop_event] are threaded
      through a small state-and-exception monad; every external call
      (pygame mixer, [subprocess.Popen], [Thread.start], process signals)
      is logged, and a [Host] oracle decides which of them raise.
    - [Module Heartbeat]: the two waiting loops of [main], as a
      statement-level machine driven by a schedule of main-thread steps,
      signal deliveries and wait timeouts. *)

From Stdlib Require Import ZArith List String Ascii Bool Lia QArith.
Import ListNotations.

Module Audio.

Local Open Scope string_scope.
Local Open Scope Z_scope.

(** ** Data *)

(** A [subprocess.Popen] object; only its [pid] is ever read. *)
Record Popen := { pid : Z }.

(** The worker [Thread(target=_ps, daemon=True)]: the closure [_ps] plays
    [self.path], repeatedly while [stop_event] is unset when [self.loop]. *)
Record Thread := { target_path : string; target_loop : bool }.

(** The imported [pygame] module object. *)
Inductive PygameModule := Pygame.

Record AudioPlayer := {
  path : string;
  loop : bool;
  backend : option string;
  proc : option Popen;
  _thread : option Thread;
  _use_pygame : bool;
  pygame : option PygameModule
}.

(** External calls that may raise. *)
Inductive Call :=
| ImportPygame                         (* import pygame *)
| MixerInit                            (* pygame.mixer.init() *)
| MixerMusicLoad (p : string)          (* pygame.mixer.music.load(path) *)
| MixerMusicPlay (loops : Z)           (* pygame.mixer.music.play(loops=..) *)
| MixerMusicStop                       (* pygame.mixer.music.stop() *)
| MixerQuit                            (* pygame.mixer.quit() *)
| PopenArgs (args : list string)       (* subprocess.Popen(args, stdout=DEVNULL, stderr=DEVNULL) *)
| PopenShell (cmd : string)            (* subprocess.Popen(cmd, shell=True) *)
| ImportPlaysound                      (* from playsound import playsound *)
| ThreadStart (t : Thread)             (* self._thread.start() *)
| Terminate (p : Popen)                (* self.proc.terminate() *)
| WaitProc (p : Popen) (timeout : Z)   (* self.proc.wait(timeout=1) *)
| Kill (p : Popen).                    (* self.proc.kill() *)

(** Lines written by [print]; the text of a caught exception is not kept. *)
Inductive Msg :=
| MsgNotFound (p : string)             (* [!] Audio file not found: {path} *)
| MsgPygamePlaying                     (* [*] Playing via pygame.mixer (in-process). *)
| MsgPygameFailed                      (* [!] pygame playback failed: {e} *)
| MsgCliPlaying (b : option string) (n : Z)  (* [*] Playing via {backend} (pid={pid}) *)
| MsgCliFailed (b : option string)     (* [!] {backend} playback failed: {e} *)
| MsgOpened (b : option string)        (* [*] Opened with {backend} (external app). *)
| MsgOpenFailed                        (* [!] fallback open failed: {e} *)
| MsgPlaysoundPlaying                  (* [*] Playing via playsound in background thread. *)
| MsgNoBackend                         (* [!] No audio backend available. *)
| MsgPygameStopped                     (* [*] Stopped pygame playback. *)
| MsgTerminated                        (* [*] Terminated external player process. *)
| MsgThreadNotice.                     (* [*] Playback thread cannot be reliably stopped ... *)

(** What the process did, oldest first. *)
Inductive Event :=
| Did (c : Call)       (* the call returned *)
| Failed (c : Call)    (* the call raised *)
| Said (m : Msg).      (* a line was printed *)

(** The host the program runs on.  [raises], [spawn] and [is_alive] see
    the events so far, so that the same call may answer differently later
    (a mixer that was quit, a worker that finished). *)
Record Host := {
  which : string -> bool;                  (* shutil.which(cmd) is not None *)
  system : string;                         (* platform.system() *)
  is_file : string -> bool;                (* Path(p).is_file() *)
  raises : list Event -> Call -> bool;     (* does this call raise now? *)
  spawn : list Event -> Z;                 (* pid of a process spawned now *)
  is_alive : list Event -> Thread -> bool  (* self._thread.is_alive() *)
}.

(** The mutable state a method sees: the object, the log, and the
    module-level [stop_event] flag read by the playsound worker. *)
Record State := {
  self : AudioPlayer;
  log : list Event;
  stop_event : bool
}.

(** ** The monad: state plus exceptions *)

Inductive Res (A : Type) :=
| Val (a : A)
| Exc.
Arguments Val {A} a.
Arguments Exc {A}.

Definition M (A : Type) : Type := State -> Res A * State.

Definition ret {A} (a : A) : M A := fun st => (Val a, st).

Definition bind {A B} (m : M A) (k : A -> M B) : M B :=
  fun st =>
    match m st with
    | (Val a, st') => k a st'
    | (Exc, st') => (Exc, st')
    end.

(** [try: m except Exception: handler]; the state reached when the
    exception was raised is kept. *)
Definition try_except {A} (m handler : M A) : M A :=
  fun st =>
    match m st with
    | (Val a, st') => (Val a, st')
    | (Exc, st') => handler st'
    end.

Declare Scope py_scope.
Delimit Scope py_scope with py.
Notation "x <- m ;; k" := (bind m (fun x => k))
  (at level 61, m at next level, right associativity) : py_scope.
Notation "m ;; k" := (bind m (fun _ => k))
  (at level 61, right associativity) : py_scope.
Local Open Scope py_scope.

Definition record (e : Event) (st : State) : State :=
  {| self := self st; log := log st ++ [e]; stop_event := stop_event st |}.

Definition print (m : Msg) : M unit := fun st => (Val tt, record (Said m) st).

Definition get {A} (f : AudioPlayer -> A) : M A := fun st => (Val (f (self st)), st).

Definition update (f : AudioPlayer -> AudioPlayer) : M unit :=
  fun st => (Val tt, {| self := f (self st); log := log st; stop_event := stop_event st |}).

Definition set_backend (b : option string) : M unit :=
  update (fun ap => {| path := path ap; loop := loop ap; backend := b; proc := proc ap;
                       _thread := _thread ap; _use_pygame := _use_pygame ap; pygame := pygame ap |}).

Definition set_proc (p : option Popen) : M unit :=
  update (fun ap => {| path := path ap; loop := loop ap; backend := backend ap; proc := p;
                       _thread := _thread ap; _use_pygame := _use_pygame ap; pygame := pygame ap |}).

Definition set_thread (t : option Thread) : M unit :=
  update (fun ap => {| path := path ap; loop := loop ap; backend := backend ap; proc := proc ap;
                       _thread := t; _use_pygame := _use_pygame ap; pygame := pygame ap |}).

Definition set_use_pygame (b : bool) : M unit :=
  update (fun ap => {| path := path ap; loop := loop ap; backend := backend ap; proc := proc ap;
                       _thread := _thread ap; _use_pygame := b; pygame := pygame ap |}).

Definition set_pygame (m : option PygameModule) : M unit :=
  update (fun ap => {| path := path ap; loop := loop ap; backend := backend ap; proc := proc ap;
                       _thread := _thread ap; _use_pygame := _use_pygame ap; pygame := m |}).

(** Python truthiness of an object reference: [None] is false, a module,
    a [Popen] or a [Thread] is true. *)
Definition truthy {A} (o : option A) : bool :=
  match o with Some _ => true | None => false end.

(** [x in (a, b, ...)] on strings; [None] is in no tuple of strings. *)
Definition is_in (b : option string) (l : list string) : bool :=
  match b with
  | Some s => existsb (String.eqb s) l
  | None => false
  end.

Definition cli_players : list string := ["mpg123"; "mpv"; "ffplay"; "afplay"].
Definition openers : list string := ["xdg-open"; "open"; "start"].

Section WithHost.

Variable h : Host.

(** An external call: logged, and raising when the host says so. *)
Definition call (c : Call) : M unit :=
  fun st =>
    if raises h (log st) c
    then (Exc, record (Failed c) st)
    else (Val tt, record (Did c) st).

(** [subprocess.Popen(...)]: returns the new process object. *)
Definition popen (c : Call) : M Popen :=
  fun st =>
    if raises h (log st) c
    then (Exc, record (Failed c) st)
    else (Val {| pid := spawn h (log st) |}, record (Did c) st).

(** ** [AudioPlayer.__init__] *)

(** [for cmd in (...): if shutil.which(cmd): self.backend = cmd; break] *)
Fixpoint probe_cli (cmds : list string) : M unit :=
  match cmds with
  | [] => ret tt
  | cmd :: rest => if which h cmd then set_backend (Some cmd) else probe_cli rest
  end.

Definition init (p : string) (lp : bool) : M unit :=
  update (fun _ => {| path := p; loop := lp; backend := None; proc := None;
                      _thread := None; _use_pygame := false; pygame := None |}) ;;
  try_except
    (call ImportPygame ;;
     call MixerInit ;;
     set_pygame (Some Pygame) ;;
     set_use_pygame true ;;
     set_backend (Some "pygame"))
    (set_pygame None) ;;
  up <- get _use_pygame ;;
  if negb up then
    probe_cli cli_players ;;
    b <- get backend ;;
    match b with
    | None =>
        if String.eqb (system h) "Windows" then set_backend (Some "start")
        else if which h "xdg-open" then set_backend (Some "xdg-open")
        else if which h "open" then set_backend (Some "open")
        else set_backend None
    | Some _ => ret tt
    end
  else ret tt.

(** ** [AudioPlayer.play] *)

(** The argument list built for an external CLI player. *)
Definition cli_args (b : string) (lp : bool) (p : string) : list string :=
  if String.eqb b "ffplay" then
    if lp then [b; "-nodisp"; "-loop"; "0"; "-loglevel"; "quiet"; p]
    else [b; "-nodisp"; "-autoexit"; "-loglevel"; "quiet"; p]
  else if String.eqb b "mpv" then
    ([b; "--no-terminal"; "--really-quiet"] ++ (if lp then ["--loop-file=inf"] else [])) ++ [p]
  else (* mpg123, afplay *)
    if lp && String.eqb b "mpg123" then [b; "-z"; "-q"; p]
    else [b; p].

Definition dquote : string := String (ascii_of_nat 34) EmptyString.

(** The shell command of the Windows opener: [start], an empty quoted
    window title, and the quoted path. *)
Definition start_command (p : string) : string :=
  "start " ++ dquote ++ dquote ++ " " ++ dquote ++ p ++ dquote.

Definition name_of (b : option string) : string :=
  match b with Some s => s | None => EmptyString end.

(** A block of [play] either executes [return v] ([Some v]) or falls
    through to the next statement ([None]). *)
Definition then_ (s1 s2 : M (option bool)) : M (option bool) :=
  r <- s1 ;;
  match r with
  | Some v => ret (Some v)
  | None => s2
  end.

Definition play_pygame : M (option bool) :=
  up <- get _use_pygame ;;
  pg <- get pygame ;;
  if up && truthy pg then
    try_except
      (p <- get path ;;
       call (MixerMusicLoad p) ;;
       lp <- get loop ;;
       let loop_flag := if lp then -1 else 0 in
       call (MixerMusicPlay loop_flag) ;;
       print MsgPygamePlaying ;;
       ret (Some true))
      (print MsgPygameFailed ;; ret None)
  else ret None.

Definition play_cli : M (option bool) :=
  b <- get backend ;;
  if is_in b cli_players then
    try_except
      (lp <- get loop ;;
       p <- get path ;;
       let args := cli_args (name_of b) lp p in
       pr <- popen (PopenArgs args) ;;
       set_proc (Some pr) ;;
       b' <- get backend ;;
       print (MsgCliPlaying b' (pid pr)) ;;
       ret (Some true))
      (b' <- get backend ;; print (MsgCliFailed b') ;; ret None)
  else ret None.

Definition play_opener : M (option bool) :=
  b <- get backend ;;
  if is_in b openers then
    try_except
      (p <- get path ;;
       pr <- (if String.eqb (name_of b) "start"
              then popen (PopenShell (start_command p))
              else popen (PopenArgs [name_of b; p])) ;;
       set_proc (Some pr) ;;
       b' <- get backend ;;
       print (MsgOpened b') ;;
       ret (Some true))
      (print MsgOpenFailed ;; ret None)
  else ret None.

Definition play_playsound : M (option bool) :=
  try_except
    (call ImportPlaysound ;;
     p <- get path ;;
     lp <- get loop ;;
     let t := {| target_path := p; target_loop := lp |} in
     set_thread (Some t) ;;
     call (ThreadStart t) ;;
     set_backend (Some "playsound-thread") ;;
     print MsgPlaysoundPlaying ;;
     ret (Some true))
    (ret None).

Definition play : M bool :=
  p <- get path ;;
  if negb (is_file h p) then
    print (MsgNotFound p) ;; ret false
  else
    r <- then_ play_pygame (then_ play_cli (then_ play_opener play_playsound)) ;;
    match r with
    | Some v => ret v
    | None => print MsgNoBackend ;; ret false
    end.

(** ** [AudioPlayer.stop] *)

Definition stop_pygame (stopped : bool) : M bool :=
  up <- get _use_pygame ;;
  pg <- get pygame ;;
  if up && truthy pg then
    try_except
      (call MixerMusicStop ;;
       try_except (call MixerQuit) (ret tt) ;;
       print MsgPygameStopped ;;
       ret true)
      (ret stopped)
  else ret stopped.

Definition stop_proc (stopped : bool) : M bool :=
  pr <- get proc ;;
  match pr with
  | Some p =>
      try_except
        (call (Terminate p) ;;
         call (WaitProc p 1) ;;
         print MsgTerminated ;;
         ret true)
        (try_except
           (call (Kill p) ;; ret true)
           (ret stopped))
  | None => ret stopped
  end.

Definition stop_thread (stopped : bool) : M bool :=
  th <- get _thread ;;
  match th with
  | Some t =>
      fun st =>
        if negb stopped && is_alive h (log st) t
        then (print MsgThreadNotice ;; ret true) st
        else ret stopped st
  | None => ret stopped
  end.

Definition stop : M bool :=
  stopped <- stop_pygame false ;;
  stopped <- stop_proc stopped ;;
  stop_thread stopped.

End WithHost.

(** ** Observers over the log *)

(** The events a method call appended to the log. *)
Definition emitted {A} (m : M A) (st : State) : list Event :=
  skipn (List.length (log st)) (log (snd (m st))).

(** The call [c] was made (it returned or raised). *)
Definition called (c : Call) (l : list Event) : Prop :=
  In (Did c) l \/ In (Failed c) l.

(** The backend an event starts an attempt of, if any. *)
Definition attempt_of (e : Event) : option string :=
  match e with
  | Did c | Failed c =>
      match c with
      | MixerMusicLoad _ => Some "pygame"
      | PopenArgs (x :: _) => Some x
      | PopenShell _ => Some "start"
      | ImportPlaysound => Some "playsound-thread"
      | _ => None
      end
  | Said _ => None
  end.

Fixpoint attempts (l : list Event) : list string :=
  match l with
  | [] => []
  | e :: rest =>
      match attempt_of e with
      | Some b => b :: attempts rest
      | None => attempts rest
      end
  end.

(** The event that makes an attempt succeed: playback was started. *)
Definition started (e : Event) : bool :=
  match e with
  | Did (MixerMusicPlay _) | Did (PopenArgs _) | Did (PopenShell _) | Did (ThreadStart _) => true
  | _ => false
  end.

(** What follows the first event that started playback. *)
Fixpoint after_start (l : list Event) : list Event :=
  match l with
  | [] => []
  | e :: rest => if started e then rest else after_start rest
  end.

(** The candidates [play] goes through for a player, in order: the mixer
    when it was initialised, the backend chosen at construction when it is
    a CLI player or a file-opener, and the playsound thread. *)
Definition plan (ap : AudioPlayer) : list string :=
  (if _use_pygame ap && truthy (pygame ap) then ["pygame"] else []) ++
  (if is_in (backend ap) cli_players then [name_of (backend ap)] else []) ++
  (if is_in (backend ap) openers then [name_of (backend ap)] else []) ++
  ["playsound-thread"].

(** The file-opener of the platform, as [__init__] picks it. *)
Definition opener_of (h : Host) : option string :=
  if String.eqb (system h) "Windows" then Some "start"
  else if which h "xdg-open" then Some "xdg-open"
  else if which h "open" then Some "open"
  else None.

(** The host answers every call the same way whatever happened before. *)
Definition steady (h : Host) : Prop :=
  (forall l l' c, raises h l c = raises h l' c) /\
  (forall l l' t, is_alive h l t = is_alive h l' t).

(** ** Example hosts *)

Definition blank : State :=
  {| self := {| path := EmptyString; loop := false; backend := None; proc := None;
                _thread := None; _use_pygame := false; pygame := None |};
     log := []; stop_event := false |}.

Definition song : string := "song.mp3".

(** [mixer.quit()] has returned at some point of the log. *)
Definition mixer_was_quit (l : list Event) : bool :=
  existsb (fun e => match e with Did MixerQuit => true | _ => false end) l.

(** A POSIX host without pygame: [present] lists the commands found by
    [shutil.which], [bad] the calls that raise, [alive] is the worker's
    state. *)
Definition posix_host (present : list string) (bad : Call -> bool) (alive : bool) : Host :=
  {| which := fun c => existsb (String.eqb c) present;
     system := "Linux";
     is_file := String.eqb song;
     raises := fun _ c => match c with ImportPygame => true | _ => bad c end;
     spawn := fun _ => 4242;
     is_alive := fun _ _ => alive |}.

(** Only playsound is there. *)
Definition bare (alive : bool) : Host := posix_host [] (fun _ => false) alive.

(** mpg123 is installed; the player ignores SIGTERM, so the one second
    wait raises [TimeoutExpired]. *)
Definition mpg123_host : Host :=
  posix_host ["mpg123"] (fun c => match c with WaitProc _ _ => true | _ => false end) true.

(** pygame initialises and plays; once the mixer was quit,
    [mixer.music.stop()] raises. *)
Definition mixer_host : Host :=
  {| which := fun _ => false;
     system := "Linux";
     is_file := String.eqb song;
     raises := fun l c => match c with MixerMusicStop => mixer_was_quit l | _ => false end;
     spawn := fun _ => 4242;
     is_alive := fun _ _ => true |}.

(** pygame initialises but cannot load the file, mpg123 is installed,
    playsound is not. *)
Definition broken_mixer_host : Host :=
  {| which := String.eqb "mpg123";
     system := "Linux";
     is_file := String.eqb song;
     raises := fun _ c => match c with MixerMusicLoad _ | ImportPlaysound => true | _ => false end;
     spawn := fun _ => 4242;
     is_alive := fun _ _ => true |}.

(** Sessions: a player constructed and played on one of these hosts. *)
Definition session (h : Host) (lp : bool) : State :=
  snd (play h (snd (init h song lp blank))).

(** Constructed, never played. *)
Definition fresh (h : Host) (lp : bool) : State :=
  snd (init h song lp blank).

End Audio.

Module Heartbeat.

Local Open Scope Z_scope.

(** ** Data *)

Inductive Signal := SIGINT | SIGTERM | SIGALRM.

(** The scheduling arguments of [main]: [args.interval], [args.message],
    [args.silent], [args.count].  The interval is a float in the program;
    only its sign is examined, so a rational stands for it. *)
Record Args := {
  interval : Q;
  message : string;
  silent : bool;
  count : Z
}.

(** [is_posix]: timer + [signal.pause()], or the [Event.wait] fallback. *)
Inductive Mode := Posix | Fallback.

(** Program points of the [try] block of [main], one per statement. *)
Inductive Pc :=
| Arm       (* signal.signal(SIGALRM, alarm_handler); signal.setitimer(ITIMER_REAL, i, i) *)
| While     (* while not stop_event.is_set(): *)
| Wait      (* about to call signal.pause() / heartbeat_event.wait(interval) *)
| Blocked   (* suspended inside that call *)
| StopChk   (* if stop_event.is_set(): break *)
| BeatChk   (* if heartbeat_event.is_set(): *)
| Clear     (* heartbeat_event.clear() *)
| Incr      (* heartbeat_count += 1 *)
| Emit      (* if not args.silent: print(...) *)
| Limit     (* if args.count > 0 and heartbeat_count >= args.count: break *)
| Disarm    (* signal.setitimer(signal.ITIMER_REAL, 0) *)
| Done      (* the try block was left normally *)
| Fault.    (* except Exception *)

(** A printed heartbeat, [[{now}] {message} ({heartbeat_count})]; the
    timestamp is not kept. *)
Record Line := { text : string; number : Z }.

(** The two module-level events, the local [heartbeat_count] and what
    was printed.  [armed] and [wakes] are bookkeeping, not program
    variables: whether the interval timer is running, and how many times
    the waiting call has returned. *)
Record State := {
  pc : Pc;
  stop_event : bool;
  heartbeat_event : bool;
  heartbeat_count : Z;
  armed : bool;
  printed : list Line;
  wakes : nat
}.

Definition goto (p : Pc) (s : State) : State :=
  {| pc := p; stop_event := stop_event s; heartbeat_event := heartbeat_event s;
     heartbeat_count := heartbeat_count s; armed := armed s;
     printed := printed s; wakes := wakes s |}.

(** The waiting call returns to program point [p]. *)
Definition resume (p : Pc) (s : State) : State :=
  {| pc := p; stop_event := stop_event s; heartbeat_event := heartbeat_event s;
     heartbeat_count := heartbeat_count s; armed := armed s;
     printed := printed s; wakes := S (wakes s) |}.

Definition set_armed (b : bool) (s : State) : State :=
  {| pc := pc s; stop_event := stop_event s; heartbeat_event := heartbeat_event s;
     heartbeat_count := heartbeat_count s; armed := b;
     printed := printed s; wakes := wakes s |}.

Definition set_heartbeat_event (b : bool) (s : State) : State :=
  {| pc := pc s; stop_event := stop_event s; heartbeat_event := b;
     heartbeat_count := heartbeat_count s; armed := armed s;
     printed := printed s; wakes := wakes s |}.

Definition set_stop_event (b : bool) (s : State) : State :=
  {| pc := pc s; stop_event := b; heartbeat_event := heartbeat_event s;
     heartbeat_count := heartbeat_count s; armed := armed s;
     printed := printed s; wakes := wakes s |}.

(** ** Signal handlers *)

Definition sigterm_handler (s : State) : State :=
  set_heartbeat_event true (set_stop_event true s).

Definition alarm_handler (s : State) : State :=
  set_heartbeat_event true s.

(** [signal.signal(signal.SIGINT, sigterm_handler)] and
    [signal.signal(signal.SIGTERM, sigterm_handler)]; [alarm_handler] is
    installed for SIGALRM by [Arm]. *)
Definition handler (sg : Signal) : State -> State :=
  match sg with
  | SIGINT => sigterm_handler
  | SIGTERM => sigterm_handler
  | SIGALRM => alarm_handler
  end.

(** After a handler ran: [signal.pause()] returns; [Event.wait] returns
    once the event is set. *)
Definition wake (m : Mode) (s : State) : State :=
  match pc s with
  | Blocked =>
      match m with
      | Posix => resume StopChk s
      | Fallback => if heartbeat_event s then resume Clear s else s
      end
  | _ => s
  end.

(** Delivery of a signal to the main thread.  SIGALRM comes from the
    interval timer only, so none arrives while the timer is not armed. *)
Definition deliver (m : Mode) (sg : Signal) (s : State) : State :=
  match sg with
  | SIGALRM => if armed s then wake m (handler sg s) else s
  | _ => wake m (handler sg s)
  end.

(** ** The loops *)

Definition emit (a : Args) (s : State) : State :=
  {| pc := pc s; stop_event := stop_event s; heartbeat_event := heartbeat_event s;
     heartbeat_count := heartbeat_count s; armed := armed s;
     printed := printed s ++ [{| text := message a; number := heartbeat_count s |}];
     wakes := wakes s |}.

Definition incr (s : State) : State :=
  {| pc := pc s; stop_event := stop_event s; heartbeat_event := heartbeat_event s;
     heartbeat_count := heartbeat_count s + 1; armed := armed s;
     printed := printed s; wakes := wakes s |}.

(** [args.count > 0 and heartbeat_count >= args.count] *)
Definition limit_reached (a : Args) (s : State) : bool :=
  (0 <? count a) && (count a <=? heartbeat_count s).

(** One statement of the timer-driven loop. *)
Definition step_posix (a : Args) (s : State) : State :=
  match pc s with
  | Arm =>
      if Qle_bool 0 (interval a) then
        (* a zero interval disarms the timer *)
        goto While (set_armed (negb (Qeq_bool (interval a) 0)) s)
      else goto Fault s  (* setitimer raises on a negative time *)
  | While => if stop_event s then goto Disarm s else goto Wait s
  | Wait => goto Blocked s
  | Blocked => s
  | StopChk => if stop_event s then goto Disarm s else goto BeatChk s
  | BeatChk => if heartbeat_event s then goto Clear s else goto While s
  | Clear => goto Incr (set_heartbeat_event false s)
  | Incr => goto Emit (incr s)
  | Emit => if silent a then goto Limit s else goto Limit (emit a s)
  | Limit => if limit_reached a s then goto Disarm s else goto While s
  | Disarm => goto Done (set_armed false s)
  | Done => s
  | Fault => s
  end.

(** One statement of the [Event.wait] loop.  [wait] returns at once when
    the event is already set or the timeout is not positive. *)
Definition step_fallback (a : Args) (s : State) : State :=
  match pc s with
  | While => if stop_event s then goto Done s else goto Wait s
  | Wait =>
      if heartbeat_event s || Qle_bool (interval a) 0
      then resume Clear s
      else goto Blocked s
  | Blocked => s
  | Clear => goto StopChk (set_heartbeat_event false s)
  | StopChk => if stop_event s then goto Done s else goto Incr s
  | Incr => goto Emit (incr s)
  | Emit => if silent a then goto Limit s else goto Limit (emit a s)
  | Limit => if limit_reached a s then goto Done s else goto While s
  | Done => s
  | Fault => s
  | Arm | BeatChk | Disarm => s  (* not points of this loop *)
  end.

(** What can happen next: the main thread executes its next statement, a
    signal is delivered, or the timed wait expires. *)
Inductive Ev :=
| Run
| Deliver (sg : Signal)
| Timeout.

Definition expire (m : Mode) (s : State) : State :=
  match m, pc s with
  | Fallback, Blocked => resume Clear s
  | _, _ => s
  end.

Definition step (m : Mode) (a : Args) (e : Ev) (s : State) : State :=
  match e with
  | Run => match m with Posix => step_posix a s | Fallback => step_fallback a s end
  | Deliver sg => deliver m sg s
  | Timeout => expire m s
  end.

Definition run (m : Mode) (a : Args) (evs : list Ev) (s : State) : State :=
  fold_left (fun s e => step m a e s) evs s.

(** [heartbeat_count = 0] on entry of the [try] block, both events unset. *)
Definition start (m : Mode) : State :=
  {| pc := match m with Posix => Arm | Fallback => While end;
     stop_event := false; heartbeat_event := false; heartbeat_count := 0;
     armed := false; printed := []; wakes := 0 |}.






(** The numbers [1, 2, ..., n]. *)
Definition one_to (n : Z) : list Z := map Z.of_nat (seq 1 (Z.to_nat n)).

(** ** Measures on program points *)





Definition is_run (e : Ev) : bool :=
  match e with Run => true | _ => false end.

(** How many statements the main thread executes in a schedule. *)
Definition statements (evs : list Ev) : nat := List.length (filter is_run evs).


(** The heartbeat lines numbered 1 to [k]. *)
Definition lines (a : Args) (k : Z) : list Line :=
  map (fun n => {| text := message a; number := n |}) (one_to k).



End Heartbeat.

(** ** More observers of the log *)

Module AudioLog.

Import Audio.
Local Open Scope string_scope.
Local Open Scope Z_scope.

(** The events after which [stop] reports success: the mixer stopped, the
    child process was reaped or killed, or the notice about a live worker
    thread was printed. *)
Definition stopped_by (e : Event) : bool :=
  match e with
  | Did MixerMusicStop | Did (WaitProc _ _) | Did (Kill _) | Said MsgThreadNotice => true
  | _ => false
  end.

(** The call that hands the file to the platform's file-opener. *)
Definition opener_call (b : string) (p : string) : Call :=
  if String.eqb b "start" then PopenShell (start_command p) else PopenArgs [b; p].

(** Every name [__init__] can store in [backend]. *)
Definition selectable : list string := "pygame" :: cli_players ++ openers.

(** A Linux desktop without pygame and without any CLI player: only
    xdg-open is there. *)
Definition desktop_host : Host := posix_host ["xdg-open"] (fun _ => false) true.

(** No playsound, and no other backend either. *)
Definition silent_host : Host :=
  posix_host [] (fun c => match c with ImportPlaysound => true | _ => false end) true.

(** playsound imports, but no thread can be started. *)
Definition threadless_host : Host :=
  posix_host [] (fun c => match c with ThreadStart _ => true | _ => false end) true.

Definition mixer_session : State := session mixer_host false.

End AudioLog.

(** ** More observers of the heartbeat loop *)

Module HeartbeatStates.

Import Heartbeat.
Local Open Scope Z_scope.





(** The [Event.wait] loop at its [while] test after [k] counted ticks,
    when the waits returned without any timeout or signal. *)
Definition spinning (a : Args) (k : Z) : State :=
  {| pc := While;
     stop_event := false;
     heartbeat_event := false;
     heartbeat_count := k;
     armed := false;
     printed := if silent a then [] else lines a k;
     wakes := Z.to_nat k |}.


Definition forever : Args :=
  {| interval := 2; message := "heartbeat"; silent := false; count := 0 |}.


Definition no_pause : Args :=
  {| interval := 0; message := "heartbeat"; silent := false; count := 2 |}.

End HeartbeatStates.

(** * Configuration: [get_config_path], [load_config], [save_config] *)

Module Config.

Local Open Scope string_scope.
Local Open Scope list_scope.

(** ** Values and dictionaries *)

(** A value of the configuration dictionary: a string, a boolean, or any
    other JSON value (number, list, object, null), of which only the
    text [str()] gives and the truth value matter here. *)
Inductive Value :=
| VStr (s : string)
| VBool (b : bool)
| VOther (shown : string) (truth : bool).

(** [bool(v)] *)
Definition truth (v : Value) : bool :=
  match v with
  | VStr s => negb (String.eqb s EmptyString)
  | VBool b => b
  | VOther _ t => t
  end.

(** [str(v)] *)
Definition text (v : Value) : string :=
  match v with
  | VStr s => s
  | VBool true => "True"
  | VBool false => "False"
  | VOther s _ => s
  end.

(** Truth of the result of [d.get(k)]: [None] is false. *)
Definition truthy (o : option Value) : bool :=
  match o with
  | Some v => truth v
  | None => false
  end.

(** A Python [dict] with string keys, in insertion order. *)
Definition dict := list (string * Value).

(** [d.get(k)] *)
Fixpoint get (k : string) (d : dict) : option Value :=
  match d with
  | [] => None
  | (k', v) :: rest => if String.eqb k' k then Some v else get k rest
  end.

(** [d[k] = v] *)
Fixpoint set (k : string) (v : Value) (d : dict) : dict :=
  match d with
  | [] => [(k, v)]
  | (k', v') :: rest =>
      if String.eqb k' k then (k, v) :: rest else (k', v') :: set k v rest
  end.

(** [d.setdefault(k, v)] *)
Definition setdefault (k : string) (v : Value) (d : dict) : dict :=
  match get k d with
  | Some _ => d
  | None => set k v d
  end.

(** [d.update(e)] *)
Definition update (d e : dict) : dict :=
  fold_left (fun acc kv => set (fst kv) (snd kv) acc) e d.

(** ** Paths *)

(** A [pathlib.Path] as its sequence of components: [Path(s)] is the one
    component [s], and [p / name] appends a component. *)
Definition Path := list string.

Definition path_eqb (p q : Path) : bool :=
  if list_eq_dec string_dec p q then true else false.

(** The part of a file name from its last dot on, if it has a dot. *)
Fixpoint from_last_dot (l : list ascii) : option (list ascii) :=
  match l with
  | [] => None
  | c :: rest =>
      match from_last_dot rest with
      | Some s => Some s
      | None => if Ascii.eqb c "."%char then Some (c :: rest) else None
      end
  end.

(** [PurePath.suffix] on the final component: the part from the last dot
    on, unless that dot is the first or the last character. *)
Definition suffix (name : string) : string :=
  let l := list_ascii_of_string name in
  match from_last_dot l with
  | Some s =>
      if (1 <? List.length s)%nat && (List.length s <? List.length l)%nat
      then string_of_list_ascii s
      else EmptyString
  | None => EmptyString
  end.

(** [PurePath.with_suffix] on the final component. *)
Definition with_suffix_name (name suf : string) : string :=
  let old := suffix name in
  (string_of_list_ascii
     (firstn (String.length name - String.length old) (list_ascii_of_string name))
   ++ suf)%string.

Definition with_suffix (p : Path) (suf : string) : Path :=
  (removelast p ++ [with_suffix_name (last p EmptyString) suf])%list.

(** ** The machine the program runs on *)

(** What a path holds. *)
Inductive File :=
| NoFile                      (* [is_file()] is false *)
| Unreadable                  (* a file that [open] refuses *)
| NotJson                     (* a file whose text [json.load] rejects *)
| Json (top : option dict).   (* valid JSON: an object, or something else *)

Definition Files := Path -> File.

Definition write (fs : Files) (p : Path) (f : File) : Files :=
  fun q => if path_eqb q p then f else fs q.

(** The environment of [get_config_path] and the faults of the disk. *)
Record Machine := {
  system : string;                        (* platform.system() *)
  getenv : string -> option string;       (* os.environ.get *)
  home : string;                          (* Path.home() *)
  mkdir_raises : Path -> bool;            (* cfg_dir.mkdir(parents=True, exist_ok=True) *)
  open_raises : Path -> bool;             (* tmp.open("w") *)
  dump_raises : dict -> bool;             (* json.dump(data, f, ...) *)
  replace_raises : Path -> Path -> bool   (* tmp.replace(path) *)
}.

(** [x or default] on an environment variable: unset and empty are both
    false. *)
Definition env_or (o : option string) (default : Path) : Path :=
  match o with
  | Some s => if String.eqb s EmptyString then default else [s]
  | None => default
  end.

(** [get_config_path]: the path, and whether the error line was printed. *)
Definition get_config_path (m : Machine) : Path * bool :=
  let name := "light_runner" in
  let filename := "config.json" in
  let cfg_dir :=
    if String.eqb (system m) "Windows"
    then (env_or (getenv m "APPDATA") [home m; "AppData"; "Roaming"] ++ [name])%list
    else (env_or (getenv m "XDG_CONFIG_HOME") [home m; ".config"] ++ [name])%list in
  if mkdir_raises m cfg_dir
  then ([home m; ".light_runner_config.json"], true)
  else ((cfg_dir ++ [filename])%list, false).

(** Lines [load_config] can print. *)
Inductive LoadNote :=
| Corrupted      (* [!] Config file corrupted, using empty config. *)
| DecodeError    (* [!] JSON decode error in config: ... *)
| LoadError.     (* [!] Error loading config: ... *)

(** [load_config] *)
Definition load_config (fs : Files) (p : Path) : dict * option LoadNote :=
  match fs p with
  | NoFile => ([], None)
  | Unreadable => ([], Some LoadError)
  | NotJson => ([], Some DecodeError)
  | Json None => ([], Some Corrupted)
  | Json (Some d) => (d, None)
  end.

(** [save_config]: whether it returned ([true]) or raised, and the files
    afterwards.  A dump that raises leaves a truncated temporary file. *)
Definition save_config (m : Machine) (fs : Files) (p : Path) (data : dict)
  : bool * Files :=
  let tmp := with_suffix p ".tmp" in
  if open_raises m tmp then (false, fs)
  else if dump_raises m data then (false, write fs tmp NotJson)
  else
    let fs1 := write fs tmp (Json (Some data)) in
    if replace_raises m tmp p then (false, fs1)
    else (true, write (write fs1 p (fs1 tmp)) tmp NoFile).

End Config.

(** * The settings dialog: [open_config_gui] *)

Module Gui.

Import Config.
Local Open Scope string_scope.
Local Open Scope list_scope.

(** What the user and the toolkit can do while the dialog is up. *)
Inductive GuiEv :=
| Browse (chosen : string)   (* Browse...: askopenfilename returned [chosen], empty if dismissed *)
| Typed (t : string)         (* the entry now reads [t] *)
| Toggle                     (* the loop check box was clicked *)
| TestPlay                   (* Test Play (3s) *)
| Elapsed                    (* the oldest [root.after(3000, ...)] timer fires *)
| Save (confirm : bool)      (* Save or Return; [confirm] answers askyesno, if asked *)
| Cancel                     (* Cancel or Escape *)
| Close.                     (* the window is closed by the window manager *)

(** Message boxes shown. *)
Inductive Box :=
| NoFileChosen     (* showwarning: Please choose a file first. *)
| PlayFailed       (* showerror: Unable to play selected file (no backend). *)
| PathEmpty        (* showwarning: Path cannot be empty. *)
| FileNotFound.    (* askyesno: File does not exist. Save anyway? *)

(** The variables of [open_config_gui].  [world] is the audio state the
    test players act on, [timers] the players whose stop is scheduled. *)
Record Dialog := {
  entry : string;                   (* entry_var *)
  loop_var : bool;                  (* loop_var, 0 or 1 *)
  selected_path : Value;            (* selected["path"] *)
  selected_loop : bool;             (* selected["loop"] *)
  is_open : bool;                   (* the window exists and mainloop runs *)
  timers : list Audio.AudioPlayer;
  boxes : list Box;
  world : Audio.State
}.

(** What [open_config_gui] has done so far: its window is still up, or
    it returned. *)
Inductive Answer :=
| Running
| Returned (r : option dict).

(** [initial_path or ""] *)
Definition or_empty (o : option Value) : Value :=
  match o with
  | Some v => if truth v then v else VStr EmptyString
  | None => VStr EmptyString
  end.

Section WithToolkit.

Variable h : Audio.Host.

(** [str.strip], and the text the entry widget shows for an initial
    value that is not a string: both are taken as given. *)
Variable strip : string -> string.
Variable render : Value -> string.

Definition entry_text (v : Value) : string :=
  match v with
  | VStr s => s
  | _ => render v
  end.

Definition open_dialog (initial : option Value) (w : Audio.State) : Dialog :=
  {| entry := entry_text (or_empty initial);
     loop_var := false;
     selected_path := or_empty initial;
     selected_loop := false;
     is_open := true;
     timers := [];
     boxes := [];
     world := w |}.

Definition show (b : Box) (d : Dialog) : Dialog :=
  {| entry := entry d; loop_var := loop_var d; selected_path := selected_path d;
     selected_loop := selected_loop d; is_open := is_open d; timers := timers d;
     boxes := boxes d ++ [b]; world := world d |}.

Definition set_entry (t : string) (d : Dialog) : Dialog :=
  {| entry := t; loop_var := loop_var d; selected_path := selected_path d;
     selected_loop := selected_loop d; is_open := is_open d; timers := timers d;
     boxes := boxes d; world := world d |}.

Definition destroy (d : Dialog) : Dialog :=
  {| entry := entry d; loop_var := loop_var d; selected_path := selected_path d;
     selected_loop := selected_loop d; is_open := false; timers := timers d;
     boxes := boxes d; world := world d |}.

(** [browse] *)
Definition browse (chosen : string) (d : Dialog) : Dialog :=
  if String.eqb chosen EmptyString then d else set_entry chosen d.

(** [test_play]: a new player for the stripped entry text, not looping;
    its stop is scheduled when [play] returned true. *)
Definition test_play (d : Dialog) : Dialog :=
  let p := strip (entry d) in
  if String.eqb p EmptyString then show NoFileChosen d
  else
    let w1 := snd (Audio.init h p false (world d)) in
    let r := Audio.play h w1 in
    match fst r with
    | Audio.Val true =>
        {| entry := entry d; loop_var := loop_var d; selected_path := selected_path d;
           selected_loop := selected_loop d; is_open := is_open d;
           timers := timers d ++ [Audio.self (snd r)];
           boxes := boxes d; world := snd r |}
    | _ =>
        {| entry := entry d; loop_var := loop_var d; selected_path := selected_path d;
           selected_loop := selected_loop d; is_open := is_open d;
           timers := timers d;
           boxes := boxes d ++ [PlayFailed]; world := snd r |}
    end.

(** A scheduled [ap.stop()] runs. *)
Definition elapsed (d : Dialog) : Dialog :=
  match timers d with
  | [] => d
  | ap :: rest =>
      let w := {| Audio.self := ap; Audio.log := Audio.log (world d);
                  Audio.stop_event := Audio.stop_event (world d) |} in
      {| entry := entry d; loop_var := loop_var d; selected_path := selected_path d;
         selected_loop := selected_loop d; is_open := is_open d;
         timers := rest;
         boxes := boxes d; world := snd (Audio.stop h w) |}
  end.

(** [do_save] *)
Definition do_save (confirm : bool) (d : Dialog) : Dialog :=
  let p := strip (entry d) in
  if String.eqb p EmptyString then show PathEmpty d
  else if negb (Audio.is_file h p) && negb confirm then show FileNotFound d
  else
    let d' := if Audio.is_file h p then d else show FileNotFound d in
    {| entry := entry d'; loop_var := loop_var d';
       selected_path := VStr p;
       selected_loop := loop_var d';
       is_open := false; timers := timers d';
       boxes := boxes d'; world := world d' |}.

(** [do_cancel]: [selected["path"]] is assigned its own value. *)
Definition do_cancel (d : Dialog) : Dialog := destroy d.

(** One event; nothing happens once the window is gone. *)
Definition handle (d : Dialog) (e : GuiEv) : Dialog :=
  if is_open d then
    match e with
    | Browse chosen => browse chosen d
    | Typed t => set_entry t d
    | Toggle =>
        {| entry := entry d; loop_var := negb (loop_var d);
           selected_path := selected_path d; selected_loop := selected_loop d;
           is_open := is_open d; timers := timers d; boxes := boxes d; world := world d |}
    | TestPlay => test_play d
    | Elapsed => elapsed d
    | Save confirm => do_save confirm d
    | Cancel => do_cancel d
    | Close => destroy d
    end
  else d.

Definition dialog_after (initial : option Value) (evs : list GuiEv) (w : Audio.State)
  : Dialog :=
  fold_left handle evs (open_dialog initial w).

Definition is_save (e : GuiEv) : bool :=
  match e with Save _ => true | _ => false end.

(** Events that reach the audio state: a test play or a scheduled stop. *)
Definition is_audio (e : GuiEv) : bool :=
  match e with TestPlay | Elapsed => true | _ => false end.

(** The value returned after [root.mainloop()]. *)
Definition result (d : Dialog) : option dict :=
  if truth (selected_path d)
  then Some [("mp3", selected_path d); ("loop", VBool (selected_loop d))]
  else None.

(** [open_config_gui]; [tk] tells whether tkinter could be imported.
    With tkinter imported, [tk.Tk()] is taken to succeed (a display is
    there). *)
Definition open_config_gui (tk : bool) (initial : option Value) (evs : list GuiEv)
    (w : Audio.State) : Answer * Audio.State :=
  if negb tk then (Returned None, w)
  else
    let d := dialog_after initial evs w in
    if is_open d then (Running, world d) else (Returned (result d), world d).

End WithToolkit.

End Gui.

(** * The set-up part of [main] *)

Module Main.

Import Config Gui.
Local Open Scope string_scope.
Local Open Scope list_scope.

(** [args.mp3] and [args.configure]. *)
Record Args := {
  mp3 : option string;
  configure : bool
}.

(** Lines printed by [main] before the loop. *)
Inductive Line :=
| PathError        (* [!] Error creating config path: ... *)
| Load (n : LoadNote)
| SavedMp3         (* [*] Saved MP3 to config: ... *)
| SaveFailed       (* [!] Failed to save config: ... *)
| NoTkinter        (* [!] tkinter not available; cannot open GUI. *)
| ConfigSaved      (* [*] Config saved to ... *)
| NoMp3            (* [*] No MP3 configured. Exiting. *)
| UsingExisting    (* [*] Using existing configuration. *)
| NoAudio.         (* [!] Audio playback failed (no available backend). ... *)

Inductive Progress :=
| InDialog     (* the settings dialog is still up *)
| LeftEarly    (* [return] before the [try] block *)
| Ready.       (* the heartbeat loop is about to start *)

(** Where [main] stands before its loop. *)
Record Setup := {
  progress : Progress;
  cfg : dict;
  files : Files;
  lines : list Line;
  gui_opened : bool;
  player : option Audio.AudioPlayer;   (* the local variable [player] *)
  played : option bool;                (* the result of [player.play()] *)
  audio : Audio.State
}.

(** Truth of [args.mp3]: given and not empty. *)
Definition given (o : option string) : option string :=
  match o with
  | Some p => if String.eqb p EmptyString then None else Some p
  | None => None
  end.

(** [if gui_result:] *)
Definition nonempty (r : option dict) : option dict :=
  match r with
  | Some (kv :: rest) => Some (kv :: rest)
  | _ => None
  end.

(** [cfg.get("loop", False)] *)
Definition loop_flag (c : dict) : Value :=
  match get "loop" c with
  | Some v => v
  | None => VBool false
  end.

Section WithMachine.

Variable m : Machine.
Variable h : Audio.Host.
Variable tk : bool.
Variable strip : string -> string.
Variable render : Value -> string.

Definition note_lines (path_error : bool) (n : option LoadNote) : list Line :=
  (if path_error then [PathError] else []) ++
  match n with Some x => [Load x] | None => [] end.

(** [player = AudioPlayer(mp3_path, loop=loop_flag); ok = player.play()] *)
Definition start_player (c : dict) (fs : Files) (ls : list Line) (opened : bool)
    (w : Audio.State) : Setup :=
  match get "mp3" c with
  | Some v =>
      if truth v then
        let w1 := snd (Audio.init h (text v) (truth (loop_flag c)) w) in
        let r := Audio.play h w1 in
        let ok := match fst r with Audio.Val b => b | Audio.Exc => false end in
        {| progress := Ready; cfg := c; files := fs;
           lines := ls ++ (if ok then [] else [NoAudio]);
           gui_opened := opened;
           player := Some (Audio.self (snd r));
           played := Some ok;
           audio := snd r |}
      else
        {| progress := Ready; cfg := c; files := fs; lines := ls; gui_opened := opened;
           player := None; played := None; audio := w |}
  | None =>
      {| progress := Ready; cfg := c; files := fs; lines := ls; gui_opened := opened;
         player := None; played := None; audio := w |}
  end.

(** [main] from [get_config_path()] to [ok = player.play()]. *)
Definition main_setup (a : Args) (fs : Files) (evs : list GuiEv) (w : Audio.State)
  : Setup :=
  let cfg_path := fst (get_config_path m) in
  let loaded := load_config fs cfg_path in
  let ls := note_lines (snd (get_config_path m)) (snd loaded) in
  let c := fst loaded in
  (* if args.mp3: *)
  let '(c, fs, ls) :=
    match given (mp3 a) with
    | Some p =>
        let c1 := setdefault "loop" (VBool false) (set "mp3" (VStr p) c) in
        let saved := save_config m fs cfg_path c1 in
        (c1, snd saved, ls ++ [if fst saved then SavedMp3 else SaveFailed])
    | None => (c, fs, ls)
    end in
  (* if args.configure or not cfg.get("mp3"): *)
  if configure a || negb (truthy (get "mp3" c)) then
    let ls := if tk then ls else ls ++ [NoTkinter] in
    match open_config_gui h strip render tk (get "mp3" c) evs w with
    | (Running, w1) =>
        {| progress := InDialog; cfg := c; files := fs; lines := ls; gui_opened := true;
           player := None; played := None; audio := w1 |}
    | (Returned r, w1) =>
        match nonempty r with
        | Some g =>
            let c1 := update c g in
            let saved := save_config m fs cfg_path c1 in
            start_player c1 (snd saved)
              (ls ++ [if fst saved then ConfigSaved else SaveFailed]) true w1
        | None =>
            if negb (truthy (get "mp3" c)) then
              {| progress := LeftEarly; cfg := c; files := fs; lines := ls ++ [NoMp3];
                 gui_opened := true; player := None; played := None; audio := w1 |}
            else start_player c fs (ls ++ [UsingExisting]) true w1
        end
    end
  else start_player c fs ls false w.

End WithMachine.

(** A POSIX machine without XDG_CONFIG_HOME on which nothing fails. *)
Definition laptop : Machine :=
  {| system := "Linux";
     getenv := fun _ => None;
     home := "/home/user";
     mkdir_raises := fun _ => false;
     open_raises := fun _ => false;
     dump_raises := fun _ => false;
     replace_raises := fun _ _ => false |}.

(** No configuration file yet. *)
Definition no_files : Files := fun _ => NoFile.

(** A configuration file asking for [Audio.song], looped. *)
Definition configured : Files :=
  write no_files (fst (get_config_path laptop))
    (Json (Some [("mp3", VStr Audio.song); ("loop", VBool true)])).

End Main.

(** * Facts about [AudioPlayer] *)

Module AudioFacts.

Import Audio.
Local Open Scope string_scope.
Local Open Scope Z_scope.

Lemma skipn_length_app {A} (l r : list A) :
  skipn (List.length l) (l ++ r)%list = r.
Proof. induction l as [|x l IH]; simpl; auto. Qed.

Lemma skipn_length_self {A} (l : list A) : skipn (List.length l) l = [].
Proof. induction l as [|x l IH]; simpl; auto. Qed.

Ltac unfold_py :=
  unfold emitted, stop, stop_pygame, stop_proc, stop_thread,
         play, then_, play_pygame, play_cli, play_opener, play_playsound,
         set_backend, set_proc, set_thread, set_use_pygame, set_pygame,
         popen, call, print, get, update, bind, try_except, ret, record in *.

Ltac split_ifs :=
  cbn in *;
  repeat match goal with
    | |- context [if ?b then _ else _] => destruct b eqn:?; cbn in *
    | |- context [match ?o with Some _ => _ | None => _ end] =>
        is_var o; destruct o eqn:?; cbn in *
    end.

Ltac norm_log :=
  cbn [fst snd self log stop_event path loop backend proc _thread _use_pygame pygame] in *;
  repeat rewrite <- app_assoc; cbn [app];
  rewrite ?skipn_length_app, ?skipn_length_self.

Ltac open_state st :=
  let p := fresh "p" in let lp := fresh "lp" in let b := fresh "b" in
  let pr := fresh "pr" in let th := fresh "th" in let up := fresh "up" in
  let pg := fresh "pg" in let l := fresh "l" in let se := fresh "se" in
  destruct st as [[p lp b pr th up pg] l se]; cbn in *.

(** ** [stop] *)

Lemma stop_returns h st : exists b, fst (stop h st) = Val b.
Proof.
  unfold_py. open_state st.
  destruct up, pg, pr, th; cbn; split_ifs; eauto.
Qed.

Lemma stop_self h st : self (snd (stop h st)) = self st.
Proof.
  unfold_py. open_state st.
  destruct up, pg, pr, th; cbn; split_ifs; reflexivity.
Qed.


Lemma stop_no_handle h st :
  _use_pygame (self st) && truthy (pygame (self st)) = false ->
  proc (self st) = None -> _thread (self st) = None ->
  stop h st = (Val false, st).
Proof.
  unfold_py. open_state st. intros Hm -> ->. rewrite Hm. reflexivity.
Qed.

Lemma stop_terminates_first h st p :
  proc (self st) = Some p -> called (Terminate p) (emitted (stop h) st).
Proof.
  unfold called. unfold_py. open_state st. intros ->.
  destruct up, pg, th; cbn; split_ifs; norm_log; cbn; auto 10.
Qed.

Lemma stop_steady h st :
  steady h -> fst (stop h (snd (stop h st))) = fst (stop h st).
Proof.
  intros [Hr Ha].
  remember (raises h []) as f eqn:Ef.
  remember (is_alive h []) as g eqn:Eg.
  assert (Hf : forall l c, raises h l c = f c) by (intros; subst f; apply Hr).
  assert (Hg : forall l t, is_alive h l t = g t) by (intros; subst g; apply Ha).
  clear Hr Ha Ef Eg.
  unfold_py. open_state st.
  destruct up, pg, pr as [q|], th as [t|]; cbn; rewrite ?Hf, ?Hg;
    repeat match goal with
      | |- context [f ?c] => destruct (f c) eqn:?; cbn; rewrite ?Hf, ?Hg
      | |- context [g ?t] => destruct (g t) eqn:?; cbn; rewrite ?Hf, ?Hg
      end; try reflexivity; try congruence.
Qed.

(** C10: [stop] leaves the handle fields [proc], [_thread], [_use_pygame]
    and [pygame] as they were, so a second [stop] drives the same handles
    again: with a child process, [terminate] is sent by the first call and
    sent again by the second. *)
Theorem stop_keeps_handles : forall h st,
  proc (self (snd (stop h st))) = proc (self st) /\
  _thread (self (snd (stop h st))) = _thread (self st) /\
  _use_pygame (self (snd (stop h st))) = _use_pygame (self st) /\
  pygame (self (snd (stop h st))) = pygame (self st) /\
  (forall p, proc (self st) = Some p ->
     called (Terminate p) (emitted (stop h) st) /\
     called (Terminate p) (emitted (stop h) (snd (stop h st)))).
Proof.
  intros h st. rewrite stop_self. repeat split; trivial.
  - now apply stop_terminates_first.
  - apply stop_terminates_first. now rewrite stop_self.
Qed.

Lemma stop_keeps_handles_witness :
  proc (self (snd (stop mpg123_host (session mpg123_host true)))) = Some {| pid := 4242 |} /\
  called (Terminate {| pid := 4242 |})
    (emitted (stop mpg123_host) (snd (stop mpg123_host (session mpg123_host true)))).
Proof.
  destruct (stop_keeps_handles mpg123_host (session mpg123_host true))
    as (Hp & _ & _ & _ & Ht).
  split.
  - rewrite Hp. reflexivity.
  - apply (Ht {| pid := 4242 |}). reflexivity.
Defined.

(** C4, as stated, fails: on a host with pygame, [stop] on a player that
    was never played drives the mixer (it is not a no-op) and returns
    true; the second [stop] finds the mixer quit and returns false. *)
Lemma stop_twice_is_not_a_noop :
  fst (stop mixer_host (fresh mixer_host false)) = Val true /\
  emitted (stop mixer_host) (fresh mixer_host false)
    = [Did MixerMusicStop; Did MixerQuit; Said MsgPygameStopped] /\
  fst (stop mixer_host (snd (stop mixer_host (fresh mixer_host false)))) = Val false /\
  emitted (stop mixer_host) (snd (stop mixer_host (fresh mixer_host false)))
    = [Failed MixerMusicStop].
Proof. repeat split; reflexivity. Qed.

(** C4, amended: [stop] never raises and returns a boolean; it leaves the
    player object as it was; on a player that holds no handle (mixer not
    initialised, [proc] and [_thread] both [None]) it does nothing and
    returns false, the first time and the second; and on a host whose
    calls answer the same way every time, the second [stop] returns the
    boolean the first one returned. *)
Theorem stop_never_raises : forall h st,
  (exists b, fst (stop h st) = Val b) /\
  (exists b, fst (stop h (snd (stop h st))) = Val b) /\
  self (snd (stop h st)) = self st /\
  (_use_pygame (self st) && truthy (pygame (self st)) = false ->
   proc (self st) = None -> _thread (self st) = None ->
   stop h st = (Val false, st) /\ stop h (snd (stop h st)) = (Val false, st)) /\
  (steady h -> fst (stop h (snd (stop h st))) = fst (stop h st)).
Proof.
  intros h st. split; [apply stop_returns|]. split; [apply stop_returns|].
  split; [apply stop_self|]. split.
  - intros Hm Hp Ht. rewrite (stop_no_handle h st Hm Hp Ht). cbn [snd].
    split; [reflexivity | now apply stop_no_handle].
  - apply stop_steady.
Qed.

Lemma steady_bare : steady (bare true).
Proof. split; reflexivity. Qed.

Lemma stop_never_raises_witness :
  stop (bare true) (fresh (bare true) false) = (Val false, fresh (bare true) false) /\
  fst (stop (bare true) (snd (stop (bare true) (session (bare true) true))))
    = fst (stop (bare true) (session (bare true) true)).
Proof.
  destruct (stop_never_raises (bare true) (fresh (bare true) false))
    as (_ & _ & _ & Hn & _).
  destruct (stop_never_raises (bare true) (session (bare true) true))
    as (_ & _ & _ & _ & Hs).
  split.
  - apply Hn; reflexivity.
  - apply Hs. split; reflexivity.
Defined.




(** C6: on a session with a child process (and no mixer), [stop] sends
    [terminate] first; when that returns it waits with a timeout of one
    second; when the wait raises (the process is still running) it sends
    [kill]; no kill is sent after a successful wait; and it returns true
    whenever the wait or the kill returned.  It never raises. *)
Theorem stop_escalates : forall h st p,
  _use_pygame (self st) = false ->
  proc (self st) = Some p ->
  exists b,
    fst (stop h st) = Val b /\
    (hd_error (emitted (stop h) st) = Some (Did (Terminate p)) \/
     hd_error (emitted (stop h) st) = Some (Failed (Terminate p))) /\
    (In (Did (Terminate p)) (emitted (stop h) st) ->
     nth_error (emitted (stop h) st) 1 = Some (Did (WaitProc p 1)) \/
     nth_error (emitted (stop h) st) 1 = Some (Failed (WaitProc p 1))) /\
    (In (Failed (WaitProc p 1)) (emitted (stop h) st) ->
     called (Kill p) (emitted (stop h) st)) /\
    (In (Did (WaitProc p 1)) (emitted (stop h) st) ->
     ~ called (Kill p) (emitted (stop h) st)) /\
    (In (Did (WaitProc p 1)) (emitted (stop h) st) \/
     In (Did (Kill p)) (emitted (stop h) st) -> b = true).
Proof.
  intros h st p Hu Hp. unfold called. unfold_py. open_state st. subst.
  destruct th; split_ifs; norm_log; eexists; (split; [reflexivity|]);
    cbn; intuition (try discriminate; try congruence).
Qed.

Lemma stop_escalates_witness :
  exists b,
    fst (stop mpg123_host (session mpg123_host false)) = Val b /\
    called (Kill {| pid := 4242 |}) (emitted (stop mpg123_host) (session mpg123_host false)) /\
    b = true.
Proof.
  destruct (stop_escalates mpg123_host (session mpg123_host false) {| pid := 4242 |}
              eq_refl eq_refl) as (b & Hb & _ & _ & Hk & _ & Ht).
  exists b. split; [exact Hb|]. split.
  - apply Hk. vm_compute. auto.
  - apply Ht. right. vm_compute. auto.
Defined.


(** ** [__init__] and [play] *)

Ltac open_player st :=
  let p := fresh "p" in let lp := fresh "lp" in let b := fresh "b" in
  let pr := fresh "pr" in let th := fresh "th" in let up := fresh "up" in
  let pg := fresh "pg" in let l := fresh "l" in let se := fresh "se" in
  destruct st as [[p lp b pr th up pg] l se];
  cbn -[is_in cli_args start_command String.eqb] in *.

Ltac split_play :=
  cbn -[is_in cli_args start_command String.eqb] in *;
  repeat match goal with
    | H : ?b = _ |- context [if ?b then _ else _] =>
        rewrite H; cbn -[is_in cli_args start_command String.eqb] in *
    | |- context [if ?b then _ else _] =>
        destruct b eqn:?; cbn -[is_in cli_args start_command String.eqb] in *
    end.

Lemma cli_not_opener b : is_in b cli_players = true -> is_in b openers = false.
Proof.
  destruct b as [s|]; cbn; [|discriminate].
  rewrite !orb_false_r, !orb_true_iff.
  intros [H|[H|[H|H]]]; apply String.eqb_eq in H; subst; reflexivity.
Qed.

Lemma cli_args_head b lp p : exists rest, cli_args b lp p = b :: rest.
Proof.
  unfold cli_args.
  destruct (b =? "ffplay")%string, (b =? "mpv")%string, lp, (b =? "mpg123")%string;
    cbn; eauto.
Qed.

Lemma play_trace h st :
  is_file h (path (self st)) = true ->
  fst (play h st) = Val (existsb started (emitted (play h) st)) /\
  (exists rest, plan (self st) = (attempts (emitted (play h) st) ++ rest)%list) /\
  (existsb started (emitted (play h) st) = false ->
   attempts (emitted (play h) st) = plan (self st)) /\
  attempts (after_start (emitted (play h) st)) = [].
Proof.
  intros Hf. unfold plan. unfold_py. open_player st. rewrite Hf.
  destruct (is_in b cli_players) eqn:Hc.
  - pose proof (cli_not_opener _ Hc) as Ho.
    destruct b as [s|]; [|discriminate].
    destruct (cli_args_head s lp p) as [rest Hr].
    destruct up, pg; split_play; rewrite ?Hr; norm_log; cbn; rewrite ?Hr; cbn;
      repeat split; eauto; try discriminate.
  - destruct (is_in b openers) eqn:Ho.
    + destruct b as [s|]; [|discriminate]. cbn [name_of] in *.
      destruct (s =? "start")%string eqn:Es;
        [pose proof Es as Es'; apply String.eqb_eq in Es'; subst s|];
        destruct up, pg; split_play; norm_log; cbn;
        repeat split; eauto; try discriminate.
    + destruct up, pg; split_play; norm_log; cbn;
        repeat split; eauto; try discriminate.
Qed.


Lemma init_selects h p lp st0 :
  fst (init h p lp st0) = Val tt /\
  path (self (snd (init h p lp st0))) = p /\
  loop (self (snd (init h p lp st0))) = lp /\
  proc (self (snd (init h p lp st0))) = None /\
  _thread (self (snd (init h p lp st0))) = None /\
  (_use_pygame (self (snd (init h p lp st0))) = true <->
   In (Did MixerInit) (emitted (init h p lp) st0)) /\
  (_use_pygame (self (snd (init h p lp st0))) = true ->
   pygame (self (snd (init h p lp st0))) = Some Pygame /\
   backend (self (snd (init h p lp st0))) = Some "pygame") /\
  (_use_pygame (self (snd (init h p lp st0))) = false ->
   pygame (self (snd (init h p lp st0))) = None /\
   backend (self (snd (init h p lp st0)))
     = match find (which h) cli_players with
       | Some c => Some c
       | None => opener_of h
       end).
Proof.
  unfold init, opener_of, probe_cli, cli_players. unfold_py.
  destruct st0 as [ap l se]. cbn -[String.eqb].
  destruct (raises h l ImportPygame); cbn -[String.eqb];
    [|destruct (raises h (l ++ [Did ImportPygame]) MixerInit); cbn -[String.eqb]];
    repeat match goal with
      | |- context [if ?b then _ else _] => destruct b eqn:?; cbn -[String.eqb]
      end;
    norm_log; cbn -[String.eqb];
    repeat split; auto; try discriminate;
    intuition (try discriminate; try congruence).
Qed.






Lemma in_cli_players b : In b cli_players -> is_in (Some b) cli_players = true.
Proof.
  cbn. intros [<-|[<-|[<-|[<-|[]]]]]; reflexivity.
Qed.

(** C9, as stated, fails: mpg123 has no native loop, yet the loop flag
    changes its argument list (shuffle [-z] and quiet [-q] are added). *)
Lemma mpg123_loop_changes_arguments :
  cli_args "mpg123" false song = ["mpg123"; song] /\
  cli_args "mpg123" true song = ["mpg123"; "-z"; "-q"; song] /\
  hd_error (emitted (play mpg123_host) (fresh mpg123_host true))
    = Some (Did (PopenArgs ["mpg123"; "-z"; "-q"; song])) /\
  hd_error (emitted (play mpg123_host) (fresh mpg123_host false))
    = Some (Did (PopenArgs ["mpg123"; song])).
Proof. repeat split; reflexivity. Qed.

(** C9, amended: a CLI player is spawned with [cli_args]: its name first
    and the file path last; ffplay with [-nodisp -autoexit -loglevel
    quiet], or [-nodisp -loop 0 -loglevel quiet] when looping; mpv with
    [--no-terminal --really-quiet], plus [--loop-file=inf] when looping;
    afplay with the path only, whatever the loop flag; mpg123 with the
    path only, or with [-z -q] before the path when looping. *)
Theorem cli_argument_shapes : forall h st b,
  is_file h (path (self st)) = true ->
  _use_pygame (self st) = false ->
  backend (self st) = Some b ->
  In b cli_players ->
  (hd_error (emitted (play h) st)
     = Some (Did (PopenArgs (cli_args b (loop (self st)) (path (self st))))) \/
   hd_error (emitted (play h) st)
     = Some (Failed (PopenArgs (cli_args b (loop (self st)) (path (self st)))))) /\
  (forall p,
     cli_args "ffplay" false p = ["ffplay"; "-nodisp"; "-autoexit"; "-loglevel"; "quiet"; p] /\
     cli_args "ffplay" true p = ["ffplay"; "-nodisp"; "-loop"; "0"; "-loglevel"; "quiet"; p] /\
     cli_args "mpv" false p = ["mpv"; "--no-terminal"; "--really-quiet"; p] /\
     cli_args "mpv" true p = ["mpv"; "--no-terminal"; "--really-quiet"; "--loop-file=inf"; p] /\
     cli_args "afplay" false p = ["afplay"; p] /\
     cli_args "afplay" true p = ["afplay"; p] /\
     cli_args "mpg123" false p = ["mpg123"; p] /\
     cli_args "mpg123" true p = ["mpg123"; "-z"; "-q"; p]).
Proof.
  intros h st b Hf Hu Hb Hin. split.
  - apply in_cli_players in Hin.
    unfold_py. open_player st. subst. rewrite Hf.
    split_play; norm_log; cbn; auto.
  - intros p. repeat split; reflexivity.
Qed.

Lemma cli_argument_shapes_witness :
  hd_error (emitted (play mpg123_host) (fresh mpg123_host false))
    = Some (Did (PopenArgs ["mpg123"; song])).
Proof.
  destruct (cli_argument_shapes mpg123_host (fresh mpg123_host false) "mpg123"
              eq_refl eq_refl eq_refl (or_introl eq_refl)) as [[H|H] _].
  - exact H.
  - discriminate H.
Defined.

(** C3, as stated, fails: pygame initialises but cannot load the file,
    mpg123 is installed, playsound is not.  [play] goes from the mixer
    straight to playsound and returns false; mpg123 is never tried. *)
Lemma play_skips_installed_player :
  which broken_mixer_host "mpg123" = true /\
  backend (self (fresh broken_mixer_host false)) = Some "pygame" /\
  fst (play broken_mixer_host (fresh broken_mixer_host false)) = Val false /\
  emitted (play broken_mixer_host) (fresh broken_mixer_host false)
    = [Failed (MixerMusicLoad song); Said MsgPygameFailed;
       Failed ImportPlaysound; Said MsgNoBackend] /\
  attempts (emitted (play broken_mixer_host) (fresh broken_mixer_host false))
    = ["pygame"; "playsound-thread"].
Proof. repeat split; reflexivity. Qed.

(** C3, amended: the constructor selects one backend by priority (the
    mixer if it initialises; else the first of mpg123, mpv, ffplay,
    afplay found on the host; else the platform's file-opener; else
    none).  For an existing file, [play] tries, in this order, the mixer
    if it was initialised, the selected backend if it is a CLI player or
    a file-opener, and the playsound thread: an attempt that raises is
    followed by the next of these (never by another CLI player or
    opener), nothing is tried after the first attempt that starts
    playback, [play] returns true exactly when one did, and when it
    returns false all of them were tried. *)
Theorem play_fallback_chain :
  (forall h p lp st0,
     (_use_pygame (self (snd (init h p lp st0))) = true <->
      In (Did MixerInit) (emitted (init h p lp) st0)) /\
     (_use_pygame (self (snd (init h p lp st0))) = true ->
      backend (self (snd (init h p lp st0))) = Some "pygame") /\
     (_use_pygame (self (snd (init h p lp st0))) = false ->
      backend (self (snd (init h p lp st0)))
        = match find (which h) cli_players with
          | Some c => Some c
          | None => opener_of h
          end)) /\
  (forall h st,
     is_file h (path (self st)) = true ->
     fst (play h st) = Val (existsb started (emitted (play h) st)) /\
     (exists rest, plan (self st) = (attempts (emitted (play h) st) ++ rest)%list) /\
     (existsb started (emitted (play h) st) = false ->
      attempts (emitted (play h) st) = plan (self st)) /\
     attempts (after_start (emitted (play h) st)) = []).
Proof.
  split.
  - intros h p lp st0.
    destruct (init_selects h p lp st0) as (_ & _ & _ & _ & _ & H1 & H2 & H3).
    split; [exact H1|]. split.
    + intros H. now apply H2.
    + intros H. now apply H3.
  - intros h st. apply play_trace.
Qed.

Lemma play_fallback_chain_witness :
  backend (self (fresh mpg123_host false)) = Some "mpg123" /\
  fst (play mpg123_host (fresh mpg123_host false)) = Val true.
Proof.
  destruct play_fallback_chain as [Hi Hp].
  destruct (Hi mpg123_host song false blank) as (_ & _ & Hb).
  destruct (Hp mpg123_host (fresh mpg123_host false) eq_refl) as (Hr & _).
  split.
  - unfold fresh. rewrite (Hb eq_refl). reflexivity.
  - rewrite Hr. reflexivity.
Defined.

End AudioFacts.

(** * Facts about the heartbeat loop *)

Module HeartbeatFacts.

Import Heartbeat.
Local Open Scope Z_scope.

Lemma run_app m a l1 l2 s : run m a (l1 ++ l2) s = run m a l2 (run m a l1 s).
Proof. unfold run. apply fold_left_app. Qed.

Lemma run_cons m a e l s : run m a (e :: l) s = run m a l (step m a e s).
Proof. reflexivity. Qed.

Lemma one_to_succ k : 0 <= k -> one_to (k + 1) = (one_to k ++ [k + 1])%list.
Proof.
  intros Hk. unfold one_to.
  replace (Z.to_nat (k + 1)) with (S (Z.to_nat k)) by lia.
  rewrite seq_S, map_app. cbn [map]. do 2 f_equal. lia.
Qed.

Lemma lines_succ a k :
  0 <= k -> lines a (k + 1) = (lines a k ++ [{| text := message a; number := k + 1 |}])%list.
Proof.
  intros Hk. unfold lines. rewrite one_to_succ by assumption.
  now rewrite map_app.
Qed.

Lemma lines_pred a k :
  1 <= k -> (lines a (k - 1) ++ [{| text := message a; number := k |}])%list = lines a k.
Proof.
  intros Hk. replace (lines a k) with (lines a ((k - 1) + 1)) by (f_equal; lia).
  rewrite lines_succ by lia. do 3 f_equal. lia.
Qed.

Ltac open_loop s :=
  let p := fresh "p" in let se := fresh "se" in let he := fresh "he" in
  let hc := fresh "hc" in let ar := fresh "ar" in let pr := fresh "pr" in
  let wk := fresh "wk" in
  destruct s as [p se he hc ar pr wk].

Ltac step_cases m e p :=
  destruct m; destruct e as [|[| |]|]; destruct p; cbn in *.

(** ** Facts that hold for every schedule *)












(** ** Runs without cancellation *)

Section QuietRuns.

Variable m : Mode.
Variable a : Args.
Hypothesis interval_positive : (0 < interval a)%Q.
Hypothesis count_positive : 0 < count a.















End QuietRuns.






End HeartbeatFacts.

(** * More facts about [AudioPlayer] *)

Module AudioMore.

Import Audio AudioLog AudioFacts.
Local Open Scope string_scope.
Local Open Scope Z_scope.

Lemma play_frame h st :
  (exists b, fst (play h st) = Val b) /\
  path (self (snd (play h st))) = path (self st) /\
  loop (self (snd (play h st))) = loop (self st) /\
  _use_pygame (self (snd (play h st))) = _use_pygame (self st) /\
  pygame (self (snd (play h st))) = pygame (self st) /\
  stop_event (snd (play h st)) = stop_event st.
Proof.
  unfold_py. open_player st.
  destruct (is_file h p), up, pg; split_play; repeat split; eauto.
Qed.


(** X10: the constructor never raises and starts nothing: the only calls
    it makes are the import of pygame and [mixer.init()], [proc] and
    [_thread] are [None], [path] and [loop] are the arguments, and
    [stop_event] is untouched. *)
Theorem constructor_starts_nothing : forall h p lp st0,
  fst (init h p lp st0) = Val tt /\
  (forall e, In e (emitted (init h p lp) st0) ->
     e = Did ImportPygame \/ e = Failed ImportPygame \/
     e = Did MixerInit \/ e = Failed MixerInit) /\
  path (self (snd (init h p lp st0))) = p /\
  loop (self (snd (init h p lp st0))) = lp /\
  proc (self (snd (init h p lp st0))) = None /\
  _thread (self (snd (init h p lp st0))) = None /\
  stop_event (snd (init h p lp st0)) = stop_event st0.
Proof.
  intros h p lp st0.
  unfold init, probe_cli, cli_players. unfold_py.
  destruct st0 as [ap l se]. cbn -[String.eqb].
  destruct (raises h l ImportPygame); cbn -[String.eqb];
    [|destruct (raises h (l ++ [Did ImportPygame]) MixerInit); cbn -[String.eqb]];
    repeat match goal with
      | |- context [if ?b then _ else _] => destruct b eqn:?; cbn -[String.eqb]
      end;
    norm_log; cbn -[String.eqb];
    repeat split; auto; intros e; cbn; intuition auto.
Qed.

(** X11: the constructor leaves [backend] at [None] exactly when the
    mixer did not initialise, none of mpg123, mpv, ffplay, afplay is on
    the host, the platform is not Windows, and neither xdg-open nor open
    is on the host; otherwise [backend] is one of the eight names it
    knows.  On Windows a backend is always selected. *)
Theorem backend_none_only_without_opener : forall h p lp st0,
  (backend (self (snd (init h p lp st0))) = None <->
   _use_pygame (self (snd (init h p lp st0))) = false /\
   forallb (fun c => negb (which h c)) cli_players = true /\
   String.eqb (system h) "Windows" = false /\
   which h "xdg-open" = false /\
   which h "open" = false) /\
  (backend (self (snd (init h p lp st0))) = None \/
   is_in (backend (self (snd (init h p lp st0)))) selectable = true).
Proof.
  intros h p lp st0.
  destruct (init_selects h p lp st0) as (_ & _ & _ & _ & _ & _ & H2 & H3).
  destruct (_use_pygame (self (snd (init h p lp st0)))).
  - destruct (H2 eq_refl) as [_ ->]. split; [|right; reflexivity].
    split; [discriminate | intros [? _]; discriminate].
  - destruct (H3 eq_refl) as [_ ->]. clear H2 H3.
    unfold opener_of, cli_players. cbn -[String.eqb selectable].
    destruct (which h "mpg123"), (which h "mpv"), (which h "ffplay"), (which h "afplay");
      cbn -[String.eqb selectable];
      try (split; [split; [discriminate | intros (_ & ? & _); discriminate]
                  | right; reflexivity]).
    destruct (String.eqb (system h) "Windows"), (which h "xdg-open"), (which h "open");
      cbn -[String.eqb selectable];
      try (split; [split; [discriminate | intros (_ & _ & ? & ? & ?); discriminate]
                  | right; reflexivity]).
    split; [|now left]. split; auto.
Qed.

(** X12: with an initialised mixer, [stop] first calls
    [mixer.music.stop()]; when that raises, [mixer.quit()] is never
    called (the mixer is not released); when it returns, [mixer.quit()]
    is called and [stop] returns true whether or not the quit raises. *)
Theorem stop_mixer_first : forall h st,
  _use_pygame (self st) = true ->
  pygame (self st) = Some Pygame ->
  (hd_error (emitted (stop h) st) = Some (Did MixerMusicStop) \/
   hd_error (emitted (stop h) st) = Some (Failed MixerMusicStop)) /\
  (In (Failed MixerMusicStop) (emitted (stop h) st) ->
   ~ called MixerQuit (emitted (stop h) st)) /\
  (In (Did MixerMusicStop) (emitted (stop h) st) ->
   called MixerQuit (emitted (stop h) st) /\ fst (stop h st) = Val true).
Proof.
  intros h st Hu Hp. unfold called. unfold_py. open_state st. subst.
  destruct pr, th; split_ifs; norm_log; cbn;
    intuition (try discriminate; try congruence).
Qed.

Lemma stop_mixer_first_witness :
  called MixerQuit (emitted (stop mixer_host) mixer_session) /\
  fst (stop mixer_host mixer_session) = Val true.
Proof.
  destruct (stop_mixer_first mixer_host mixer_session eq_refl eq_refl) as (_ & _ & H).
  apply H. vm_compute. auto.
Defined.

(** X13: [stop] returns true exactly when, during the call, the mixer
    was stopped, or the wait for the child process or its kill returned,
    or the notice about a still living worker thread was printed; it
    returns false otherwise. *)
Theorem stop_reports_what_it_did : forall h st,
  fst (stop h st) = Val (existsb stopped_by (emitted (stop h) st)).
Proof.
  intros h st. unfold_py. open_state st.
  destruct up, pg, pr, th; split_ifs; norm_log; reflexivity.
Qed.

Lemma in_openers b : In b openers -> is_in (Some b) openers = true.
Proof.
  cbn. intros [<-|[<-|[<-|[]]]]; reflexivity.
Qed.

Lemma opener_not_cli b : is_in b openers = true -> is_in b cli_players = false.
Proof.
  destruct (is_in b cli_players) eqn:E; [|reflexivity].
  intros H. now rewrite (cli_not_opener _ E) in H.
Qed.

(** X14: when the selected backend is a file-opener (and the mixer is not
    in use), [play] on an existing file starts with one spawn: the shell
    command [start] with an empty title and the quoted path on Windows,
    the argument list [[backend; path]] for xdg-open and open.  The loop
    flag has no part in it.  When the spawn returns, [play] returns true
    and [proc] holds the new process. *)
Theorem opener_ignores_loop : forall h st b,
  is_file h (path (self st)) = true ->
  _use_pygame (self st) = false ->
  backend (self st) = Some b ->
  In b openers ->
  (hd_error (emitted (play h) st) = Some (Did (opener_call b (path (self st)))) \/
   hd_error (emitted (play h) st) = Some (Failed (opener_call b (path (self st))))) /\
  (hd_error (emitted (play h) st) = Some (Did (opener_call b (path (self st)))) ->
   fst (play h st) = Val true /\
   proc (self (snd (play h st))) = Some {| pid := spawn h (log st) |}).
Proof.
  intros h st b Hf Hu Hb Hin. apply in_openers in Hin.
  pose proof (opener_not_cli _ Hin) as Hc.
  unfold opener_call. unfold_py. open_player st. subst. rewrite Hf.
  destruct (String.eqb b "start") eqn:Es; split_play; norm_log; cbn;
    rewrite ?Es; split; auto; intros H; try discriminate H; auto.
Qed.

Lemma opener_ignores_loop_witness :
  hd_error (emitted (play desktop_host) (fresh desktop_host true))
    = Some (Did (PopenArgs ["xdg-open"; song])).
Proof.
  destruct (opener_ignores_loop desktop_host (fresh desktop_host true) "xdg-open"
              eq_refl eq_refl eq_refl (or_introl eq_refl)) as [[H|H] _].
  - exact H.
  - discriminate H.
Defined.

(** X15: with an initialised mixer, [play] on an existing file first
    loads the file into the mixer; when the load returns it starts the
    music with [loops = -1] if looping was asked for and [loops = 0]
    otherwise; when that returns, [play] returns true having spawned
    no process and started no thread. *)
Theorem mixer_plays_in_process : forall h st,
  is_file h (path (self st)) = true ->
  _use_pygame (self st) = true ->
  pygame (self st) = Some Pygame ->
  (hd_error (emitted (play h) st) = Some (Did (MixerMusicLoad (path (self st)))) \/
   hd_error (emitted (play h) st) = Some (Failed (MixerMusicLoad (path (self st))))) /\
  (hd_error (emitted (play h) st) = Some (Did (MixerMusicLoad (path (self st)))) ->
   nth_error (emitted (play h) st) 1
     = Some (Did (MixerMusicPlay (if loop (self st) then -1 else 0))) \/
   nth_error (emitted (play h) st) 1
     = Some (Failed (MixerMusicPlay (if loop (self st) then -1 else 0)))) /\
  (nth_error (emitted (play h) st) 1
     = Some (Did (MixerMusicPlay (if loop (self st) then -1 else 0))) ->
   play h st
     = (Val true,
        record (Said MsgPygamePlaying)
          (record (Did (MixerMusicPlay (if loop (self st) then -1 else 0)))
             (record (Did (MixerMusicLoad (path (self st)))) st)))).
Proof.
  intros h st Hf Hu Hp. unfold_py. open_player st. subst. rewrite Hf.
  destruct lp; split_play; norm_log; cbn;
    repeat split; auto; intros H; try discriminate H; auto.
Qed.

Lemma mixer_plays_in_process_witness :
  nth_error (emitted (play mixer_host) (fresh mixer_host true)) 1
    = Some (Did (MixerMusicPlay (-1))).
Proof.
  destruct (mixer_plays_in_process mixer_host (fresh mixer_host true)
              eq_refl eq_refl eq_refl) as (_ & H & _).
  destruct (H eq_refl) as [K|K].
  - exact K.
  - discriminate K.
Defined.

(** X16: a [play] that returns false leaves [proc] and [backend] as they
    were.  It can still leave a thread object behind: when the worker
    thread cannot be started, [play] returns false with [_thread] set to
    the unstarted worker for this path and loop flag. *)
Theorem failed_play_keeps_proc : forall h st,
  (fst (play h st) = Val false ->
   proc (self (snd (play h st))) = proc (self st) /\
   backend (self (snd (play h st))) = backend (self st)) /\
  (forall t, In (Failed (ThreadStart t)) (emitted (play h) st) ->
     fst (play h st) = Val false /\
     _thread (self (snd (play h st))) = Some t /\
     t = {| target_path := path (self st); target_loop := loop (self st) |}).
Proof.
  intros h st. unfold_py. open_player st.
  destruct (is_file h p), up, pg; split_play; norm_log; cbn; split;
    try (intros H; try discriminate H; auto; fail);
    intros t H; intuition (try discriminate; try congruence).
Qed.

(** X17: [play] and [stop] compose on a CLI player: when the spawn of
    the selected player returns, [play] returns true, [proc] holds the
    spawned process, the pid it prints is that process's pid, and the
    first thing a following [stop] does is to send [terminate] to that
    same process. *)
Theorem stop_terminates_spawned_player : forall h st b,
  is_file h (path (self st)) = true ->
  _use_pygame (self st) = false ->
  backend (self st) = Some b ->
  In b cli_players ->
  hd_error (emitted (play h) st)
    = Some (Did (PopenArgs (cli_args b (loop (self st)) (path (self st))))) ->
  fst (play h st) = Val true /\
  proc (self (snd (play h st))) = Some {| pid := spawn h (log st) |} /\
  In (Said (MsgCliPlaying (Some b) (spawn h (log st)))) (emitted (play h) st) /\
  (hd_error (emitted (stop h) (snd (play h st)))
     = Some (Did (Terminate {| pid := spawn h (log st) |})) \/
   hd_error (emitted (stop h) (snd (play h st)))
     = Some (Failed (Terminate {| pid := spawn h (log st) |}))).
Proof.
  intros h st b Hf Hu Hb Hin. apply in_cli_players in Hin.
  pose proof (cli_not_opener _ Hin) as Ho.
  destruct st as [[p lp b0 pr th up pg] l se].
  cbn [self log path loop backend _use_pygame] in *. subst.
  destruct (raises h l (PopenArgs (cli_args b lp p))) eqn:Er.
  - intros H. exfalso. revert H. unfold_py. cbn -[is_in cli_args start_command String.eqb].
    rewrite Hf. split_play; norm_log; cbn; discriminate.
  - intros _.
    assert (E : play h {| self := {| path := p; loop := lp; backend := Some b;
                                     proc := pr; _thread := th; _use_pygame := false;
                                     pygame := pg |};
                          log := l; stop_event := se |}
                = (Val true,
                   {| self := {| path := p; loop := lp; backend := Some b;
                                 proc := Some {| pid := spawn h l |}; _thread := th;
                                 _use_pygame := false; pygame := pg |};
                      log := (l ++ [Did (PopenArgs (cli_args b lp p))])
                               ++ [Said (MsgCliPlaying (Some b) (spawn h l))];
                      stop_event := se |})).
    { unfold_py. cbn -[is_in cli_args start_command String.eqb].
      rewrite Hf. cbn -[is_in cli_args start_command String.eqb].
      rewrite Hin. cbn -[is_in cli_args start_command String.eqb].
      rewrite Er. reflexivity. }
    unfold emitted. rewrite E. cbn [fst snd self log proc].
    split; [reflexivity|]. split; [reflexivity|]. split.
    + norm_log. cbn. auto.
    + generalize ((l ++ [Did (PopenArgs (cli_args b lp p))])
                    ++ [Said (MsgCliPlaying (Some b) (spawn h l))])%list.
      intros l1. unfold_py. cbn. split_ifs; norm_log; cbn; auto.
Qed.

Lemma stop_terminates_spawned_player_witness :
  hd_error (emitted (stop mpg123_host) (session mpg123_host false))
    = Some (Did (Terminate {| pid := 4242 |})).
Proof.
  destruct (stop_terminates_spawned_player mpg123_host (fresh mpg123_host false) "mpg123"
              eq_refl eq_refl eq_refl (or_introl eq_refl) eq_refl) as (_ & _ & _ & [H|H]).
  - exact H.
  - discriminate H.
Defined.

End AudioMore.

(** * More facts about the heartbeat loop *)

Module HeartbeatMore.

Import Heartbeat HeartbeatStates.
Local Open Scope Z_scope.

Ltac open_loop s :=
  let p := fresh "p" in let se := fresh "se" in let he := fresh "he" in
  let hc := fresh "hc" in let ar := fresh "ar" in let pr := fresh "pr" in
  let wk := fresh "wk" in
  destruct s as [p se he hc ar pr wk].

Ltac step_cases m e p :=
  destruct m; destruct e as [|[| |]|]; destruct p; cbn in *.

(** Normalise the state after one event. *)
Ltac exec_step :=
  cbv beta iota zeta delta
    [step step_posix step_fallback deliver expire wake handler
     sigterm_handler alarm_handler goto resume set_armed
     set_heartbeat_event set_stop_event emit incr
     pc stop_event heartbeat_event heartbeat_count armed printed wakes
     negb andb orb].

Ltac split_ifs :=
  repeat match goal with
    | |- context [if ?b then _ else _] => destruct b eqn:?; cbn
    end.

(** X1: along any schedule, from any state, the count never decreases, it
    grows by at most one per statement the main thread executes (signals
    and timeouts alone count nothing), and [stop_event], once set, stays
    set. *)
Theorem count_is_monotone : forall m a evs s,
  heartbeat_count s <= heartbeat_count (run m a evs s)
    <= heartbeat_count s + Z.of_nat (statements evs) /\
  (stop_event s = true -> stop_event (run m a evs s) = true).
Proof.
  intros m a evs. induction evs as [|e evs IH]; intros s.
  - cbn. split; [lia | auto].
  - rewrite HeartbeatFacts.run_cons. destruct (IH (step m a e s)) as [IH1 IH2].
    assert (H1 : heartbeat_count s <= heartbeat_count (step m a e s)
                 <= heartbeat_count s + (if is_run e then 1 else 0)).
    { clear. open_loop s. step_cases m e p; split_ifs; lia. }
    assert (H2 : stop_event s = true -> stop_event (step m a e s) = true).
    { clear. open_loop s. step_cases m e p; intros ->; cbn; split_ifs; reflexivity. }
    split; [|auto]. unfold statements in *. cbn [filter].
    destruct (is_run e); cbn [List.length]; lia.
Qed.

Lemma numbering_step m a e s :
  (0 <= heartbeat_count s /\
   (pc s = Emit -> 1 <= heartbeat_count s) /\
   printed s = (if silent a then []
                else lines a (match pc s with
                              | Emit => heartbeat_count s - 1
                              | _ => heartbeat_count s
                              end))) ->
  0 <= heartbeat_count (step m a e s) /\
  (pc (step m a e s) = Emit -> 1 <= heartbeat_count (step m a e s)) /\
  printed (step m a e s)
    = (if silent a then []
       else lines a (match pc (step m a e s) with
                     | Emit => heartbeat_count (step m a e s) - 1
                     | _ => heartbeat_count (step m a e s)
                     end)).
Proof.
  open_loop s. intros (H0 & H1 & H2). cbn in *.
  step_cases m e p; subst; split_ifs;
    rewrite ?Z.add_simpl_r;
    rewrite ?HeartbeatFacts.lines_pred by (apply H1; reflexivity);
    repeat split; trivial; try lia; try discriminate.
Qed.

(** X2: whatever the arguments and whatever signals and timeouts arrive,
    in silent mode nothing is printed, and otherwise the printed
    heartbeats carry the message and the numbers 1, 2, 3, ... without gap
    or repetition, up to the count (up to the count minus one at the
    point where the count is raised and the line not printed yet). *)
Theorem printed_numbers_follow_the_count : forall m a evs,
  0 <= heartbeat_count (run m a evs (start m)) /\
  printed (run m a evs (start m))
    = (if silent a then []
       else lines a (match pc (run m a evs (start m)) with
                     | Emit => heartbeat_count (run m a evs (start m)) - 1
                     | _ => heartbeat_count (run m a evs (start m))
                     end)).
Proof.
  intros m a evs.
  assert (G : forall s,
             (0 <= heartbeat_count s /\
              (pc s = Emit -> 1 <= heartbeat_count s) /\
              printed s = (if silent a then []
                           else lines a (match pc s with
                                         | Emit => heartbeat_count s - 1
                                         | _ => heartbeat_count s
                                         end))) ->
             0 <= heartbeat_count (run m a evs s) /\
             printed (run m a evs s)
               = (if silent a then []
                  else lines a (match pc (run m a evs s) with
                                | Emit => heartbeat_count (run m a evs s) - 1
                                | _ => heartbeat_count (run m a evs s)
                                end))).
  { induction evs as [|e evs IH]; intros s H.
    - cbn. destruct H as (H0 & _ & H2). auto.
    - rewrite HeartbeatFacts.run_cons. apply IH. now apply numbering_step. }
  apply G. destruct m; cbn; repeat split; try lia; try discriminate;
    destruct (silent a); reflexivity.
Qed.

(** ** No limit: [--count 0] *)

Section Unlimited.

Variable m : Mode.
Variable a : Args.
Hypothesis interval_positive : (0 < interval a)%Q.
Hypothesis no_limit : count a <= 0.







End Unlimited.



(** ** Intervals that are not positive *)




Lemma blocked_statements m a n s :
  pc s = Blocked -> run m a (repeat Run n) s = s.
Proof.
  intros H. induction n as [|n IH]; [reflexivity|].
  cbn [repeat]. rewrite HeartbeatFacts.run_cons.
  replace (step m a Run s) with s; [exact IH|].
  open_loop s. cbn in H. subst p. destruct m; reflexivity.
Qed.





(** One turn of the [Event.wait] loop when the wait returns at once. *)
Lemma spin_turn a k :
  Qle_bool (interval a) 0 = true ->
  0 <= k ->
  0 < count a ->
  run Fallback a (repeat Run 7) (spinning a k)
    = if count a <=? k + 1
      then goto Done (spinning a (k + 1))
      else spinning a (k + 1).
Proof.
  intros Hq Hk Hn. unfold spinning. cbn [repeat].
  assert (Hl : (0 <? count a) = true) by (now apply Z.ltb_lt).
  destruct (silent a) eqn:Hs;
    repeat (rewrite HeartbeatFacts.run_cons; exec_step;
            rewrite ?Hq, ?Hs; exec_step);
    cbn [run fold_left]; unfold limit_reached; cbn [heartbeat_count];
    rewrite Hl; cbn [andb];
    rewrite ?HeartbeatFacts.lines_pred, ?Z.add_simpl_r by lia;
    replace (S (Z.to_nat k)) with (Z.to_nat (k + 1)) by lia;
    destruct (count a <=? k + 1); exec_step;
    rewrite <- ?HeartbeatFacts.lines_succ by lia; reflexivity.
Qed.

Lemma spin_turns a n k :
  Qle_bool (interval a) 0 = true ->
  0 <= k ->
  k + Z.of_nat (S n) = count a ->
  pc (run Fallback a (repeat Run (7 * S n)) (spinning a k)) = Done /\
  heartbeat_count (run Fallback a (repeat Run (7 * S n)) (spinning a k)) = count a /\
  wakes (run Fallback a (repeat Run (7 * S n)) (spinning a k)) = Z.to_nat (count a).
Proof.
  intros Hq. revert k. induction n as [|n IH]; intros k Hk Hc.
  - change (7 * 1)%nat with 7%nat. rewrite spin_turn by (trivial; lia).
    destruct (Z.leb_spec (count a) (k + 1)); [|lia].
    cbn. repeat split; trivial; try lia; f_equal; lia.
  - replace (7 * S (S n))%nat with (7 + 7 * S n)%nat by lia.
    rewrite repeat_app, HeartbeatFacts.run_app, spin_turn by (trivial; lia).
    destruct (Z.leb_spec (count a) (k + 1)); [lia|].
    apply IH; lia.
Qed.

(** X6: in [Event.wait] mode an interval that is not positive makes
    every wait return at once: with a limit N > 0 the loop counts its N
    ticks and finishes within 7 N statements, without a single timeout or
    signal. *)
Theorem nonpositive_interval_spins : forall a,
  (interval a <= 0)%Q ->
  0 < count a ->
  pc (run Fallback a (repeat Run (7 * Z.to_nat (count a))) (start Fallback)) = Done /\
  heartbeat_count (run Fallback a (repeat Run (7 * Z.to_nat (count a))) (start Fallback))
    = count a /\
  wakes (run Fallback a (repeat Run (7 * Z.to_nat (count a))) (start Fallback))
    = Z.to_nat (count a).
Proof.
  intros a Hi Hn.
  assert (Hq : Qle_bool (interval a) 0 = true) by (now apply Qle_bool_iff).
  assert (E : start Fallback = spinning a 0).
  { unfold start, spinning. cbn. destruct (silent a); reflexivity. }
  rewrite E. destruct (Z.to_nat (count a)) as [|n] eqn:En; [lia|].
  assert (H0 : 0 <= 0) by lia.
  assert (Hc : 0 + Z.of_nat (S n) = count a) by lia.
  destruct (spin_turns a n 0 Hq H0 Hc) as (K1 & K2 & K3).
  rewrite En in K3. auto.
Qed.

Lemma nonpositive_interval_spins_witness :
  heartbeat_count (run Fallback no_pause (repeat Run 14) (start Fallback)) = 2.
Proof.
  destruct (nonpositive_interval_spins no_pause) as (_ & H & _).
  - discriminate.
  - reflexivity.
  - exact H.
Defined.

(** ** Cancellation, mode by mode *)






(** X8: in timer mode a SIGINT or SIGTERM that arrives between the
    [while] test and [signal.pause()] does not end the loop by itself:
    the main thread enters the pause and stays suspended however long it
    is given; the next signal (the next timer alarm, if the timer runs)
    releases it, and then the loop is left after two statements without
    counting or printing a tick. *)
Theorem posix_cancel_before_pause_waits : forall a s sg,
  sg = SIGINT \/ sg = SIGTERM ->
  pc s = Wait ->
  (forall n, pc (run Posix a (Deliver sg :: repeat Run (S n)) s) = Blocked) /\
  (forall n sg',
     (sg' = SIGALRM -> armed s = true) ->
     pc (run Posix a (Deliver sg :: repeat Run (S n) ++ [Deliver sg'; Run; Run]) s) = Done /\
     heartbeat_count
       (run Posix a (Deliver sg :: repeat Run (S n) ++ [Deliver sg'; Run; Run]) s)
       = heartbeat_count s /\
     printed (run Posix a (Deliver sg :: repeat Run (S n) ++ [Deliver sg'; Run; Run]) s)
       = printed s).
Proof.
  intros a s sg Hsg Hp.
  assert (B : forall n,
             run Posix a (Deliver sg :: repeat Run (S n)) s
               = goto Blocked (sigterm_handler s)).
  { intros n. cbn [repeat]. rewrite !HeartbeatFacts.run_cons.
    rewrite blocked_statements.
    - open_loop s. cbn in Hp. subst p. destruct Hsg as [-> | ->]; reflexivity.
    - open_loop s. cbn in Hp. subst p. destruct Hsg as [-> | ->]; reflexivity. }
  split.
  - intros n. now rewrite B.
  - intros n sg' Ha.
    change (Deliver sg :: repeat Run (S n) ++ [Deliver sg'; Run; Run])%list
      with ((Deliver sg :: repeat Run (S n)) ++ [Deliver sg'; Run; Run])%list.
    rewrite HeartbeatFacts.run_app, B.
    open_loop s. cbn in Hp, Ha. subst p.
    destruct sg'; cbn; rewrite ?Ha by reflexivity; cbn; auto.
Qed.

Lemma posix_cancel_before_pause_waits_witness :
  pc (run Posix forever (Deliver SIGINT :: repeat Run 50)
        (run Posix forever [Run; Run] (start Posix))) = Blocked.
Proof.
  destruct (posix_cancel_before_pause_waits forever
              (run Posix forever [Run; Run] (start Posix)) SIGINT
              (or_introl eq_refl) eq_refl) as [H _].
  exact (H 49%nat).
Defined.

End HeartbeatMore.

(** * Facts about the configuration file *)

Module ConfigFacts.

Import Config.
Local Open Scope string_scope.
Local Open Scope list_scope.

Lemma with_suffix_last (dir : Path) (name suf : string) :
  with_suffix (dir ++ [name]) suf = dir ++ [with_suffix_name name suf].
Proof.
  unfold with_suffix. now rewrite removelast_last, last_last.
Qed.

Lemma path_eqb_refl p : path_eqb p p = true.
Proof. unfold path_eqb. destruct (list_eq_dec string_dec p p); congruence. Qed.

Lemma path_eqb_neq p q : p <> q -> path_eqb p q = false.
Proof. unfold path_eqb. destruct (list_eq_dec string_dec p q); congruence. Qed.

(** The temporary file of [save_config] is another file than the
    configuration file, for each path [get_config_path] returns. *)
Lemma tmp_is_another_file m :
  with_suffix (fst (get_config_path m)) ".tmp" <> fst (get_config_path m).
Proof.
  unfold get_config_path.
  destruct (mkdir_raises m _); cbn [fst].
  - change [home m; ".light_runner_config.json"]
      with ([home m] ++ [".light_runner_config.json"]).
    rewrite with_suffix_last. intros E. apply app_inv_head in E. discriminate E.
  - rewrite with_suffix_last. intros E. apply app_inv_head in E. discriminate E.
Qed.

(** X18: saving the configuration never damages it.  For the path
    [get_config_path] returns: when [save_config] raises (the temporary
    file cannot be opened, the dump fails half way, or the rename
    fails), the configuration file is exactly as before, so
    [load_config] gives what it gave before; when it returns, the
    temporary file is gone and [load_config] gives back the saved
    dictionary without a complaint. *)
Theorem failed_save_keeps_config : forall m fs data,
  (fst (save_config m fs (fst (get_config_path m)) data) = false ->
   snd (save_config m fs (fst (get_config_path m)) data) (fst (get_config_path m))
     = fs (fst (get_config_path m)) /\
   load_config (snd (save_config m fs (fst (get_config_path m)) data))
     (fst (get_config_path m))
     = load_config fs (fst (get_config_path m))) /\
  (fst (save_config m fs (fst (get_config_path m)) data) = true ->
   snd (save_config m fs (fst (get_config_path m)) data)
     (with_suffix (fst (get_config_path m)) ".tmp") = NoFile /\
   load_config (snd (save_config m fs (fst (get_config_path m)) data))
     (fst (get_config_path m))
     = (data, None)).
Proof.
  intros m fs data.
  pose proof (tmp_is_another_file m) as Hne.
  set (p := fst (get_config_path m)) in *.
  assert (Hpt : path_eqb p (with_suffix p ".tmp") = false).
  { apply path_eqb_neq. congruence. }
  unfold save_config, load_config, write.
  destruct (open_raises m (with_suffix p ".tmp")), (dump_raises m data),
    (replace_raises m (with_suffix p ".tmp") p);
    cbn [fst snd]; rewrite ?Hpt, ?path_eqb_refl; cbn;
    split; intros H; try discriminate H; split; reflexivity.
Qed.

End ConfigFacts.

(** * Facts about the settings dialog and the set-up of [main] *)

Module SetupFacts.

Import Config Gui Main.
Local Open Scope string_scope.
Local Open Scope list_scope.

Section Dialogs.

Variable h : Audio.Host.
Variable strip : string -> string.
Variable render : Value -> string.

Ltac open_dialog_state d :=
  let en := fresh "en" in let lv := fresh "lv" in let sp := fresh "sp" in
  let sl := fresh "sl" in let op := fresh "op" in let tm := fresh "tm" in
  let bx := fresh "bx" in let w := fresh "w" in
  destruct d as [en lv sp sl op tm bx w].

(** Any event keeps a truthy selection truthy; without a Save the
    selection is not touched at all. *)
Lemma handle_selection d e :
  truth (selected_path d) = true ->
  truth (selected_path (handle h strip d e)) = true /\
  (is_save e = false ->
   selected_path (handle h strip d e) = selected_path d /\
   selected_loop (handle h strip d e) = selected_loop d).
Proof.
  open_dialog_state d. cbn. intros Ht.
  destruct op; [|cbn; auto].
  destruct e; cbn; unfold browse, test_play, elapsed, do_save, do_cancel, destroy, show, set_entry; cbn;
    repeat match goal with
      | |- context [if ?b then _ else _] => destruct b eqn:?; cbn
      | |- context [match ?x with _ => _ end] => destruct x eqn:?; cbn
      end; auto; try (split; [|intros; discriminate]).
  all: try (rewrite Heqb; reflexivity).
Qed.

Lemma dialog_selection evs d :
  truth (selected_path d) = true ->
  truth (selected_path (fold_left (handle h strip) evs d)) = true /\
  (forallb (fun e => negb (is_save e)) evs = true ->
   selected_path (fold_left (handle h strip) evs d) = selected_path d /\
   selected_loop (fold_left (handle h strip) evs d) = selected_loop d).
Proof.
  revert d. induction evs as [|e evs IH]; intros d Ht; [cbn; auto|].
  cbn [fold_left forallb].
  destruct (handle_selection d e Ht) as [H1 H2].
  destruct (IH _ H1) as [K1 K2]. split; [exact K1|].
  intros Hs. apply andb_prop in Hs as [He Hs].
  destruct (K2 Hs) as [-> ->]. apply H2. now destruct (is_save e).
Qed.

(** Without a Save the selection is never touched. *)
Lemma unsaved_selection evs d :
  forallb (fun e => negb (is_save e)) evs = true ->
  selected_path (fold_left (handle h strip) evs d) = selected_path d /\
  selected_loop (fold_left (handle h strip) evs d) = selected_loop d.
Proof.
  revert d. induction evs as [|e evs IH]; intros d Hs; [cbn; auto|].
  cbn [fold_left forallb] in *. apply andb_prop in Hs as [He Hs].
  destruct (IH (handle h strip d e) Hs) as [-> ->].
  open_dialog_state d. cbn. destruct op; [|cbn; auto].
  destruct e; try discriminate He; cbn;
    unfold browse, test_play, elapsed, do_cancel, destroy, show, set_entry; cbn;
    repeat match goal with
      | |- context [if ?b then _ else _] => destruct b eqn:?; cbn
      | |- context [match ?x with _ => _ end] => destruct x eqn:?; cbn
      end; auto.
Qed.

(** What [open_config_gui] can return. *)
Lemma gui_returns tk initial evs w r :
  fst (open_config_gui h strip render tk initial evs w) = Returned r ->
  (r = None \/
   exists p l, r = Some [("mp3", p); ("loop", VBool l)] /\ truth p = true) /\
  (tk = true -> truthy initial = true ->
   exists p l,
     r = Some [("mp3", p); ("loop", VBool l)] /\ truth p = true /\
     (forallb (fun e => negb (is_save e)) evs = true ->
      initial = Some p /\ l = false)).
Proof.
  unfold open_config_gui, dialog_after. destruct tk; cbn [negb fst].
  - destruct (is_open _) eqn:Ho; [discriminate|]. cbn [fst].
    intros E. injection E as <-. split.
    + unfold result. destruct (truth (selected_path _)) eqn:Ht; [|now left].
      right. eauto.
    + intros _ Hi. destruct initial as [v|]; [|discriminate]. cbn in Hi.
      assert (H0 : truth (selected_path (open_dialog render (Some v) w)) = true).
      { cbn. now rewrite Hi. }
      destruct (dialog_selection evs _ H0) as [H1 H2].
      unfold result. rewrite H1. do 2 eexists. split; [reflexivity|].
      split; [exact H1|]. intros Hs. destruct (H2 Hs) as [-> ->]. cbn.
      now rewrite Hi.
  - intros E. injection E as <-. split; [now left|]. discriminate.
Qed.

(** X19: with tkinter available and a path already configured,
    [open_config_gui] never returns [None]: once the window is gone it
    returns a dictionary whose [mp3] is truthy; and when the window was
    closed without a successful Save (Cancel, Escape, the window
    manager), that dictionary is the configured path with [loop] False,
    whatever the check box showed. *)
Theorem dialog_cannot_be_cancelled : forall v evs w,
  truth v = true ->
  fst (open_config_gui h strip render true (Some v) evs w) = Running \/
  (exists p l,
     fst (open_config_gui h strip render true (Some v) evs w)
       = Returned (Some [("mp3", p); ("loop", VBool l)]) /\
     truth p = true /\
     (forallb (fun e => negb (is_save e)) evs = true -> p = v /\ l = false)).
Proof.
  intros v evs w Hv. unfold open_config_gui, dialog_after. cbn [negb].
  assert (H0 : truth (selected_path (open_dialog render (Some v) w)) = true).
  { cbn. now rewrite Hv. }
  destruct (dialog_selection evs _ H0) as [H1 H2].
  destruct (is_open _); [now left|]. right. cbn [fst].
  unfold result. rewrite H1. do 2 eexists. split; [reflexivity|]. split; [exact H1|].
  intros Hs. destruct (H2 Hs) as [-> ->]. cbn. now rewrite Hv.
Qed.

Lemma quiet_event d e :
  is_audio e = false ->
  world (handle h strip d e) = world d /\
  timers (handle h strip d e) = timers d.
Proof.
  open_dialog_state d. cbn. destruct op; [|auto].
  destruct e; cbn; try discriminate;
    unfold browse, do_save, do_cancel, destroy, show, set_entry; cbn;
    repeat match goal with
      | |- context [if ?b then _ else _] => destruct b eqn:?; cbn
      end; auto.
Qed.

Lemma closed_dialog evs d :
  is_open d = false -> fold_left (handle h strip) evs d = d.
Proof.
  intros H. induction evs as [|e evs IH]; [reflexivity|].
  cbn [fold_left]. unfold handle at 2. rewrite H. exact IH.
Qed.

(** X20: a test player outlives the dialog.  When Test Play started
    playback and no scheduled stop fires before the window is gone (no
    further Test Play either), the dialog ends with the audio state as
    the test player's [play] left it (no [stop] was run on it, nothing
    was terminated) and with that player still waiting in the timer
    list; once the window is gone, no event changes anything. *)
Theorem test_player_outlives_dialog : forall d rest,
  is_open d = true ->
  String.eqb (strip (entry d)) EmptyString = false ->
  fst (Audio.play h (snd (Audio.init h (strip (entry d)) false (world d))))
    = Audio.Val true ->
  forallb (fun e => negb (is_audio e)) rest = true ->
  world (fold_left (handle h strip) (TestPlay :: rest) d)
    = snd (Audio.play h (snd (Audio.init h (strip (entry d)) false (world d)))) /\
  timers (fold_left (handle h strip) (TestPlay :: rest) d)
    = timers d ++
      [Audio.self (snd (Audio.play h (snd (Audio.init h (strip (entry d)) false (world d)))))] /\
  (is_open (fold_left (handle h strip) (TestPlay :: rest) d) = false ->
   forall more,
     fold_left (handle h strip) more (fold_left (handle h strip) (TestPlay :: rest) d)
       = fold_left (handle h strip) (TestPlay :: rest) d).
Proof.
  intros d rest Ho Hs Hp Hq.
  assert (G : forall evs d0,
             forallb (fun e => negb (is_audio e)) evs = true ->
             world (fold_left (handle h strip) evs d0) = world d0 /\
             timers (fold_left (handle h strip) evs d0) = timers d0).
  { induction evs as [|e evs IH]; intros d0 Hf; [cbn; auto|].
    cbn in Hf. apply andb_prop in Hf as [He Hf]. cbn [fold_left].
    destruct (IH (handle h strip d0 e) Hf) as [-> ->].
    apply quiet_event. now destruct (is_audio e). }
  cbn [fold_left].
  destruct (G rest (handle h strip d TestPlay) Hq) as [Gw Gt].
  rewrite Gw, Gt. unfold handle, test_play. rewrite Ho, Hs, Hp. cbn.
  repeat split. intros Hc more. now apply closed_dialog.
Qed.

End Dialogs.

Lemma dialog_cannot_be_cancelled_witness :
  fst (open_config_gui (Audio.bare true) (fun s => s) text true
         (Some (VStr "old.mp3")) [Toggle; Cancel] Audio.blank)
    = Returned (Some [("mp3", VStr "old.mp3"); ("loop", VBool false)]).
Proof.
  destruct (dialog_cannot_be_cancelled (Audio.bare true) (fun s => s) text
              (VStr "old.mp3") [Toggle; Cancel] Audio.blank eq_refl)
    as [H | (p & l & H & _ & Hc)].
  - discriminate H.
  - destruct (Hc eq_refl) as [-> ->]. exact H.
Defined.

Lemma test_player_outlives_dialog_witness :
  Audio.log (world (fold_left (handle Audio.mpg123_host (fun s => s))
                      [TestPlay; Toggle; Save true]
                      (open_dialog text (Some (VStr Audio.song)) Audio.blank)))
    = [Audio.Failed Audio.ImportPygame;
       Audio.Did (Audio.PopenArgs ["mpg123"; Audio.song]);
       Audio.Said (Audio.MsgCliPlaying (Some "mpg123") 4242)].
Proof.
  destruct (test_player_outlives_dialog Audio.mpg123_host (fun s => s)
              (open_dialog text (Some (VStr Audio.song)) Audio.blank)
              [Toggle; Save true] eq_refl eq_refl eq_refl eq_refl) as (H & _).
  rewrite H. reflexivity.
Defined.

(** ** Dictionaries *)

Lemma get_set_same k v d : get k (set k v d) = Some v.
Proof.
  induction d as [|[k' v'] d IH]; cbn.
  - now rewrite String.eqb_refl.
  - destruct (String.eqb k' k) eqn:E; cbn; [now rewrite String.eqb_refl|].
    now rewrite E.
Qed.

Lemma get_set_other k k' v d : k' <> k -> get k' (set k v d) = get k' d.
Proof.
  intros H. induction d as [|[k0 v0] d IH]; cbn.
  - destruct (String.eqb_spec k k'); [congruence | reflexivity].
  - destruct (String.eqb_spec k0 k) as [->|N]; cbn.
    + destruct (String.eqb_spec k k'); [congruence|].
      destruct (String.eqb_spec k k'); [congruence | reflexivity].
    + destruct (String.eqb k0 k'); [reflexivity | exact IH].
Qed.

Lemma get_setdefault_other k k' v d :
  k' <> k -> get k' (setdefault k v d) = get k' d.
Proof.
  intros H. unfold setdefault. destruct (get k d); [reflexivity|].
  now apply get_set_other.
Qed.

Lemma loop_flag_setdefault d :
  loop_flag (setdefault "loop" (VBool false) d) = loop_flag d.
Proof.
  unfold loop_flag, setdefault. destruct (get "loop" d) eqn:E.
  - now rewrite E.
  - now rewrite get_set_same.
Qed.

Lemma get_mp3_update c p l :
  get "mp3" (update c [("mp3", p); ("loop", VBool l)]) = Some p /\
  get "loop" (update c [("mp3", p); ("loop", VBool l)]) = Some (VBool l).
Proof.
  unfold update. cbn [fold_left fst snd]. split.
  - rewrite get_set_other by discriminate. apply get_set_same.
  - apply get_set_same.
Qed.

(** ** [main] before its loop *)

Section Setups.

Variable m : Machine.
Variable h : Audio.Host.
Variable tk : bool.
Variable strip : string -> string.
Variable render : Value -> string.

Lemma start_player_ready c fs ls opened w :
  truthy (get "mp3" c) = true ->
  progress (start_player h c fs ls opened w) = Ready /\
  cfg (start_player h c fs ls opened w) = c /\
  files (start_player h c fs ls opened w) = fs /\
  gui_opened (start_player h c fs ls opened w) = opened /\
  (forall x, In x (lines (start_player h c fs ls opened w)) -> In x ls \/ x = NoAudio) /\
  exists v ap b,
    get "mp3" c = Some v /\ truth v = true /\
    player (start_player h c fs ls opened w) = Some ap /\
    played (start_player h c fs ls opened w) = Some b /\
    Audio.path ap = text v /\
    Audio.loop ap = truth (loop_flag c) /\
    Audio.self (audio (start_player h c fs ls opened w)) = ap.
Proof.
  intros Ht. unfold start_player.
  destruct (get "mp3" c) as [v|] eqn:E; [|discriminate]. cbn in Ht. rewrite Ht.
  cbn [progress cfg files gui_opened lines player played audio].
  repeat split.
  - intros x Hx. apply in_app_or in Hx as [Hx|Hx]; [now left|].
    destruct (match fst _ with Audio.Val b => b | Audio.Exc => false end);
      cbn in Hx; intuition.
  - exists v. do 2 eexists. split; [reflexivity|]. split; [exact Ht|].
    split; [reflexivity|]. split; [reflexivity|].
    destruct (AudioMore.play_frame h
                (snd (Audio.init h (text v) (truth (loop_flag c)) w)))
      as (_ & Hp & Hl & _).
    destruct (AudioFacts.init_selects h (text v) (truth (loop_flag c)) w)
      as (_ & Ip & Il & _).
    rewrite Hp, Hl, Ip, Il. auto.
Qed.


Lemma start_player_idle c fs ls opened w :
  truthy (get "mp3" c) = false ->
  start_player h c fs ls opened w
    = {| progress := Ready; cfg := c; files := fs; lines := ls; gui_opened := opened;
         player := None; played := None; audio := w |}.
Proof.
  unfold start_player. destruct (get "mp3" c) as [v|]; cbn; [|reflexivity].
  now intros ->.
Qed.


Lemma given_truth a q : given (mp3 a) = Some q -> truth (VStr q) = true.
Proof.
  unfold given. destruct (mp3 a) as [q'|]; [|discriminate].
  destruct (String.eqb q' EmptyString) eqn:E; [discriminate|].
  intros H. injection H as <-. cbn. now rewrite E.
Qed.

(** X22: [--mp3 PATH] without [--configure] plays PATH and never opens
    the dialog: the configuration gets [mp3 = PATH] and keeps the loop
    flag it had (False if it had none), one save of it is attempted and
    its failure changes nothing else, the player is constructed for PATH
    with that loop flag, and neither tkinter nor any dialog event has
    any influence. *)
Theorem mp3_argument_overrides : forall a fs evs w q,
  given (mp3 a) = Some q ->
  configure a = false ->
  progress (main_setup m h tk strip render a fs evs w) = Ready /\
  gui_opened (main_setup m h tk strip render a fs evs w) = false /\
  get "mp3" (cfg (main_setup m h tk strip render a fs evs w)) = Some (VStr q) /\
  loop_flag (cfg (main_setup m h tk strip render a fs evs w))
    = loop_flag (fst (load_config fs (fst (get_config_path m)))) /\
  files (main_setup m h tk strip render a fs evs w)
    = snd (save_config m fs (fst (get_config_path m))
             (cfg (main_setup m h tk strip render a fs evs w))) /\
  (exists ap,
     player (main_setup m h tk strip render a fs evs w) = Some ap /\
     Audio.path ap = q /\
     Audio.loop ap
       = truth (loop_flag (fst (load_config fs (fst (get_config_path m)))))) /\
  (forall tk' evs',
     main_setup m h tk' strip render a fs evs' w
       = main_setup m h tk strip render a fs evs w).
Proof.
  intros a fs evs w q Hg Hc.
  pose proof (given_truth a q Hg) as Hq.
  set (p := fst (get_config_path m)).
  set (c0 := fst (load_config fs p)).
  set (c1 := setdefault "loop" (VBool false) (set "mp3" (VStr q) c0)).
  assert (G1 : get "mp3" c1 = Some (VStr q)).
  { unfold c1. rewrite get_setdefault_other by discriminate. apply get_set_same. }
  assert (L1 : loop_flag c1 = loop_flag c0).
  { unfold c1. rewrite loop_flag_setdefault. unfold loop_flag.
    now rewrite get_set_other by discriminate. }
  assert (T1 : truthy (get "mp3" c1) = true) by (now rewrite G1).
  assert (E : forall tk' evs',
             main_setup m h tk' strip render a fs evs' w
               = start_player h c1 (snd (save_config m fs p c1))
                   (note_lines (snd (get_config_path m)) (snd (load_config fs p))
                    ++ [if fst (save_config m fs p c1) then SavedMp3 else SaveFailed])
                   false w).
  { intros tk' evs'. unfold main_setup. rewrite Hg, Hc. fold p c0 c1.
    rewrite T1. reflexivity. }
  rewrite (E tk evs).
  destruct (start_player_ready c1 (snd (save_config m fs p c1))
              (note_lines (snd (get_config_path m)) (snd (load_config fs p))
               ++ [if fst (save_config m fs p c1) then SavedMp3 else SaveFailed])
              false w T1)
    as (Hr & Hcfg & Hf & Ho & _ & v & ap & b & Hv & _ & Hp & _ & Hpath & Hloop & _).
  rewrite Hr, Hcfg, Hf, Ho, G1, L1. repeat split.
  - exists ap. rewrite Hp. split; [reflexivity|].
    rewrite G1 in Hv. injection Hv as <-. rewrite L1 in Hloop. auto.
  - intros tk' evs'. apply E.
Qed.

Lemma start_player_frame c fs ls opened w :
  progress (start_player h c fs ls opened w) = Ready /\
  cfg (start_player h c fs ls opened w) = c /\
  gui_opened (start_player h c fs ls opened w) = opened /\
  (forall x, In x ls -> In x (lines (start_player h c fs ls opened w))) /\
  (forall x, In x (lines (start_player h c fs ls opened w)) -> In x ls \/ x = NoAudio).
Proof.
  unfold start_player.
  destruct (get "mp3" c) as [v|]; [destruct (truth v)|];
    cbn [progress cfg gui_opened lines]; repeat split; auto.
  - intros x Hx. apply in_or_app. now left.
  - intros x Hx. apply in_app_or in Hx as [Hx|Hx]; [now left|].
    destruct (match fst _ with Audio.Val b => b | Audio.Exc => false end);
      cbn in Hx; intuition.
Qed.

(** X23: the dialog's answer replaces the stored loop flag.  With
    tkinter available, whenever the dialog was shown and [main] goes on
    to its loop, the configuration was updated from the dialog and a
    save of it was attempted: the line about an existing configuration
    being used is never printed.  When the dialog was left without a
    successful Save, the configured [mp3] is the one from before the
    dialog, but [loop] is now False, and the player does not loop,
    whatever the configuration file said. *)
Theorem dismissed_dialog_resets_loop : forall a fs evs w,
  gui_opened (main_setup m h true strip render a fs evs w) = true ->
  progress (main_setup m h true strip render a fs evs w) = Ready ->
  ~ In UsingExisting (lines (main_setup m h true strip render a fs evs w)) /\
  (In ConfigSaved (lines (main_setup m h true strip render a fs evs w)) \/
   In SaveFailed (lines (main_setup m h true strip render a fs evs w))) /\
  (forallb (fun e => negb (is_save e)) evs = true ->
   get "mp3" (cfg (main_setup m h true strip render a fs evs w))
     = match given (mp3 a) with
       | Some q => Some (VStr q)
       | None => get "mp3" (fst (load_config fs (fst (get_config_path m))))
       end /\
   get "loop" (cfg (main_setup m h true strip render a fs evs w)) = Some (VBool false) /\
   exists ap,
     player (main_setup m h true strip render a fs evs w) = Some ap /\
     Audio.loop ap = false).
Proof.
  intros a fs evs w.
  set (p := fst (get_config_path m)).
  set (c0 := fst (load_config fs p)).
  set (l0 := note_lines (snd (get_config_path m)) (snd (load_config fs p))).
  assert (N0 : forall x, In x l0 -> x <> UsingExisting).
  { intros x Hx. unfold l0, note_lines in Hx.
    apply in_app_or in Hx as [Hx|Hx].
    - destruct (snd (get_config_path m)); cbn in Hx; [|tauto].
      destruct Hx as [<-|[]]. discriminate.
    - destruct (snd (load_config fs p)); cbn in Hx; [|tauto].
      destruct Hx as [<-|[]]. discriminate. }
  assert (D : forall c fs' ls,
    (forall x, In x ls -> x <> UsingExisting) ->
    forall s,
    s = (if configure a || negb (truthy (get "mp3" c)) then
           match open_config_gui h strip render true (get "mp3" c) evs w with
           | (Running, w1) =>
               {| progress := InDialog; cfg := c; files := fs'; lines := ls;
                  gui_opened := true; player := None; played := None; audio := w1 |}
           | (Returned r, w1) =>
               match nonempty r with
               | Some g =>
                   start_player h (update c g) (snd (save_config m fs' p (update c g)))
                     (ls ++ [if fst (save_config m fs' p (update c g))
                             then ConfigSaved else SaveFailed]) true w1
               | None =>
                   if negb (truthy (get "mp3" c)) then
                     {| progress := LeftEarly; cfg := c; files := fs';
                        lines := ls ++ [NoMp3]; gui_opened := true;
                        player := None; played := None; audio := w1 |}
                   else start_player h c fs' (ls ++ [UsingExisting]) true w1
               end
           end
         else start_player h c fs' ls false w) ->
    gui_opened s = true -> progress s = Ready ->
    ~ In UsingExisting (lines s) /\
    (In ConfigSaved (lines s) \/ In SaveFailed (lines s)) /\
    (forallb (fun e => negb (is_save e)) evs = true ->
     get "mp3" (cfg s) = get "mp3" c /\
     get "loop" (cfg s) = Some (VBool false) /\
     exists ap, player s = Some ap /\ Audio.loop ap = false)).
  { intros c fs' ls Hls s Es Ho Hr.
    destruct (configure a || negb (truthy (get "mp3" c))) eqn:Ec.
    2:{ destruct (start_player_frame c fs' ls false w) as (_ & _ & Hg & _).
        rewrite Es, Hg in Ho. discriminate Ho. }
    destruct (open_config_gui h strip render true (get "mp3" c) evs w)
      as [[|r] w1] eqn:Eo.
    { rewrite Es in Hr. discriminate Hr. }
    pose proof (f_equal fst Eo) as Eo'. cbn [fst] in Eo'.
    destruct (gui_returns h strip render _ _ _ _ _ Eo') as [Hshape Hinit].
    assert (Hsome : exists pp l, r = Some [("mp3", pp); ("loop", VBool l)] /\
                                 truth pp = true).
    { destruct Hshape as [->|Hs]; [|exact Hs]. exfalso.
      destruct (truthy (get "mp3" c)) eqn:T.
      - destruct (Hinit eq_refl eq_refl) as (pp & l & Hx & _). discriminate Hx.
      - cbn in Es. rewrite Es in Hr. discriminate Hr. }
    destruct Hsome as (pp & l & -> & Hpp). cbn [nonempty] in Es.
    set (g := [("mp3", pp); ("loop", VBool l)]) in *.
    destruct (get_mp3_update c pp l) as [Gm Gl]. fold g in Gm, Gl.
    assert (T : truthy (get "mp3" (update c g)) = true) by (now rewrite Gm).
    destruct (start_player_frame (update c g) (snd (save_config m fs' p (update c g)))
                (ls ++ [if fst (save_config m fs' p (update c g))
                        then ConfigSaved else SaveFailed]) true w1)
      as (_ & Hc & _ & Hin & Hout).
    destruct (start_player_ready (update c g) (snd (save_config m fs' p (update c g)))
                (ls ++ [if fst (save_config m fs' p (update c g))
                        then ConfigSaved else SaveFailed]) true w1 T)
      as (_ & _ & _ & _ & _ & v & ap & b & _ & _ & Hp & _ & _ & Hloop & _).
    rewrite <- Es in Hc, Hin, Hout, Hp. split; [|split].
    - intros Hu. destruct (Hout _ Hu) as [Hu'|Hu']; [|discriminate Hu'].
      apply in_app_or in Hu' as [Hu'|Hu'].
      + now apply (Hls _ Hu').
      + destruct (fst (save_config m fs' p (update c g))); cbn in Hu';
          destruct Hu' as [Hu'|[]]; discriminate Hu'.
    - destruct (fst (save_config m fs' p (update c g))) eqn:Es'.
      + left. apply Hin, in_or_app. right. now left.
      + right. apply Hin, in_or_app. right. now left.
    - intros Hns. rewrite Hc, Gm, Gl.
      assert (Hl : get "mp3" c = Some pp /\ l = false).
      { destruct (truthy (get "mp3" c)) eqn:T0.
        - destruct (Hinit eq_refl eq_refl) as (pp' & l' & Hx & _ & Hy).
          injection Hx as <- <-. exact (Hy Hns).
        - exfalso. unfold open_config_gui, dialog_after in Eo'. cbn [negb] in Eo'.
          destruct (unsaved_selection h strip evs
                      (open_dialog render (get "mp3" c) w) Hns) as [Hsp _].
          destruct (is_open _); [discriminate Eo'|]. cbn [fst] in Eo'.
          unfold result in Eo'. rewrite Hsp in Eo'. cbn [open_dialog selected_path] in Eo'.
          assert (F : truth (or_empty (get "mp3" c)) = false).
          { unfold or_empty. destruct (get "mp3" c) as [v0|]; [|reflexivity].
            cbn in T0. now rewrite T0. }
          rewrite F in Eo'. discriminate Eo'. }
      destruct Hl as [Hm ->]. split; [now rewrite Hm|]. split; [reflexivity|].
      exists ap. split; [exact Hp|]. rewrite Hloop. unfold loop_flag. now rewrite Gl. }
  destruct (given (mp3 a)) as [q|] eqn:Eg.
  - set (c1 := setdefault "loop" (VBool false) (set "mp3" (VStr q) c0)).
    assert (G1 : get "mp3" c1 = Some (VStr q)).
    { unfold c1. rewrite get_setdefault_other by discriminate. apply get_set_same. }
    rewrite <- G1.
    apply (D c1 (snd (save_config m fs p c1))
             (l0 ++ [if fst (save_config m fs p c1) then SavedMp3 else SaveFailed])).
    + intros x Hx. apply in_app_or in Hx as [Hx|Hx]; [now apply N0|].
      destruct (fst (save_config m fs p c1)); cbn in Hx;
        destruct Hx as [<-|[]]; discriminate.
    + unfold main_setup. rewrite Eg. reflexivity.
  - apply (D c0 fs l0 N0). unfold main_setup. rewrite Eg. reflexivity.
Qed.

End Setups.

Lemma mp3_argument_overrides_witness :
  get "mp3" (cfg (main_setup laptop Audio.mpg123_host false (fun s => s) text
                    {| mp3 := Some Audio.song; configure := false |}
                    configured [] Audio.blank))
    = Some (VStr Audio.song) /\
  loop_flag (cfg (main_setup laptop Audio.mpg123_host false (fun s => s) text
                    {| mp3 := Some Audio.song; configure := false |}
                    configured [] Audio.blank))
    = VBool true.
Proof.
  destruct (mp3_argument_overrides laptop Audio.mpg123_host false (fun s => s) text
              {| mp3 := Some Audio.song; configure := false |}
              configured [] Audio.blank Audio.song eq_refl eq_refl)
    as (_ & _ & H1 & H2 & _).
  split; [exact H1|]. rewrite H2. reflexivity.
Defined.

Lemma dismissed_dialog_resets_loop_witness :
  get "loop" (cfg (main_setup laptop Audio.mpg123_host true (fun s => s) text
                     {| mp3 := None; configure := true |}
                     configured [Toggle; Cancel] Audio.blank))
    = Some (VBool false).
Proof.
  destruct (dismissed_dialog_resets_loop laptop Audio.mpg123_host (fun s => s) text
              {| mp3 := None; configure := true |}
              configured [Toggle; Cancel] Audio.blank eq_refl eq_refl)
    as (_ & _ & H).
  exact (proj1 (proj2 (H eq_refl))).
Defined.

End SetupFacts.
